(** * flight-domain-compile: a shallow embedding of the domain compiler

    Source: [.flight/bin/flight-domain-compile.py].  Python strings are
    modelled as [string] (ASCII text), parsed YAML data as the inductive
    [value], dictionaries as association lists in insertion order, and a
    raised exception as [None] in the option monad. *)

From Stdlib Require Import String Ascii List ZArith Bool Arith Lia.
From Stdlib Require Import Sorting.Sorted Sorting.Permutation DecimalString.
Import ListNotations.
Open Scope string_scope.
Set Warnings "-register-all".

(** ** Characters and Python string primitives *)

Definition dquote : ascii := "034"%char.
Definition squote : ascii := "'"%char.
Definition backslash : ascii := "\"%char.
Definition dollar : ascii := "$"%char.
Definition backtick : ascii := "`"%char.
Definition newline : ascii := "010"%char.
Definition tab : ascii := "009"%char.
Definition space : ascii := " "%char.

(** The one-character string [c]. *)
Definition str1 (c : ascii) : string := String c EmptyString.

(** A double-quote character as a string. *)
Definition q : string := str1 dquote.

(** [str.replace(old, new)] for a non-empty [old]: the occurrences of [old]
    are replaced from left to right, without overlap.  [skip] counts the
    characters of a matched occurrence still to be dropped. *)
Fixpoint replace_from (old new : string) (skip : nat) (s : string) : string :=
  match s with
  | EmptyString => EmptyString
  | String a t =>
      match skip with
      | S k => replace_from old new k t
      | O =>
          if prefix old s
          then new ++ replace_from old new (String.length old - 1) t
          else String a (replace_from old new 0 t)
      end
  end.

Definition replace (old new s : string) : string := replace_from old new 0 s.

(** [sub in s] on strings. *)
Fixpoint contains (sub s : string) : bool :=
  prefix sub s ||
  match s with
  | EmptyString => false
  | String _ t => contains sub t
  end.

(** [sep.join(parts)]. *)
Definition join (sep : string) (parts : list string) : string :=
  String.concat sep parts.

(** ** Escaping (lines 653-695) *)

Definition escape_bash_pattern (pattern : string) : string :=
  let result := pattern in
  let result := replace "\" "\\" result in
  let result := replace q ("\" ++ q) result in
  let result := replace "$" "\$" result in
  let result := replace "`" "\`" result in
  result.

Definition escape_for_single_quotes (s : string) : string :=
  replace "'" ("'" ++ q ++ "'" ++ q ++ "'") s.

Definition escape_pattern_for_bash_c (pattern : string) : string :=
  let result := pattern in
  let result := replace "\" "\\" result in
  let result := replace "$" "\$" result in
  let result := replace q ("\" ++ q) result in
  let result := replace "`" "\`" result in
  let result := replace "'" ("'" ++ q ++ "'" ++ q ++ "'") result in
  result.

(** ** The shell's reading of a script text

    The execution environment of an emitted fragment is bash.  [shell_lex]
    is bash's quote removal and word splitting for a text of simple
    commands: outside quotes blanks separate words and a newline ends the
    command, a backslash quotes the next character, a backslash-newline
    pair is a line continuation and a [#] that starts a word opens a
    comment up to the end of the line; between single quotes every
    character is literal; between double quotes a backslash quotes only
    [$], the backtick, the double quote, the backslash and the newline.
    Anything that would make the shell expand, substitute or run something
    else (an unquoted or double-quoted [$] or backtick, an unquoted
    operator or glob character) is outside this model: [None]. *)

Inductive quoting := Unquoted | InSingle | InDouble | InComment.

Inductive token := Word (w : string) | EndOfCommand.

Definition mem_ascii (c : ascii) (l : list ascii) : bool :=
  existsb (Ascii.eqb c) l.

(** Characters that bash treats specially when they stand unquoted. *)
Definition shell_meta : list ascii :=
  [dollar; backtick; ";"; "&"; "|"; "("; ")"; "<"; ">"; "*"; "?"; "["; "~";
   "{"; "!"]%char.

(** Characters a backslash quotes between double quotes (newline apart). *)
Definition dq_escapable : list ascii := [dollar; backtick; dquote; backslash].

Definition push (cur : option string) (c : ascii) : option string :=
  match cur with
  | None => Some (str1 c)
  | Some w => Some (w ++ str1 c)
  end.

Definition open_word (cur : option string) : option string :=
  match cur with
  | None => Some EmptyString
  | Some w => Some w
  end.

Definition flush (cur : option string) : list token :=
  match cur with
  | None => []
  | Some w => [Word w]
  end.

Fixpoint shell_lex (m : quoting) (cur : option string) (s : string)
  : option (list token) :=
  match s with
  | EmptyString =>
      match m with
      | Unquoted => Some (flush cur)
      | InComment => Some []
      | _ => None
      end
  | String c t =>
      match m with
      | Unquoted =>
          if Ascii.eqb c space || Ascii.eqb c tab then
            option_map (app (flush cur)) (shell_lex Unquoted None t)
          else if Ascii.eqb c newline then
            option_map (fun r => flush cur ++ EndOfCommand :: r)%list
              (shell_lex Unquoted None t)
          else if Ascii.eqb c "#" then
            match cur with
            | None => shell_lex InComment None t
            | Some _ => shell_lex Unquoted (push cur c) t
            end
          else if Ascii.eqb c squote then shell_lex InSingle (open_word cur) t
          else if Ascii.eqb c dquote then shell_lex InDouble (open_word cur) t
          else if Ascii.eqb c backslash then
            match t with
            | EmptyString => None
            | String d t' =>
                if Ascii.eqb d newline then shell_lex Unquoted cur t'
                else shell_lex Unquoted (push cur d) t'
            end
          else if mem_ascii c shell_meta then None
          else shell_lex Unquoted (push cur c) t
      | InSingle =>
          if Ascii.eqb c squote then shell_lex Unquoted cur t
          else shell_lex InSingle (push cur c) t
      | InDouble =>
          if Ascii.eqb c dquote then shell_lex Unquoted cur t
          else if Ascii.eqb c backslash then
            match t with
            | EmptyString => None
            | String d t' =>
                if mem_ascii d dq_escapable then shell_lex InDouble (push cur d) t'
                else if Ascii.eqb d newline then shell_lex InDouble cur t'
                else shell_lex InDouble (push cur c) t
            end
          else if Ascii.eqb c dollar || Ascii.eqb c backtick then None
          else shell_lex InDouble (push cur c) t
      | InComment =>
          if Ascii.eqb c newline then
            option_map (cons EndOfCommand) (shell_lex Unquoted None t)
          else shell_lex InComment None t
      end
  end.

(** The commands of a token stream: the words between two ends of
    command; a command without words (a blank or a comment line) is none. *)
Fixpoint commands_of (cur : list string) (ts : list token)
  : list (list string) :=
  match ts with
  | [] => match cur with [] => [] | _ => [cur] end
  | Word w :: r => commands_of (cur ++ [w]) r
  | EndOfCommand :: r =>
      match cur with
      | [] => commands_of [] r
      | _ => cur :: commands_of [] r
      end
  end.

(** The commands of a script text, each as its list of words. *)
Definition shell_commands (s : string) : option (list (list string)) :=
  option_map (commands_of []) (shell_lex Unquoted None s).

(** ** Parsed YAML data *)

Inductive value : Type :=
| VNone
| VBool (b : bool)
| VInt (n : Z)
| VStr (s : string)
| VList (l : list value)
| VDict (d : list (string * value)).

(** A Python [dict] with string keys, in insertion order. *)
Definition dict : Type := list (string * value).

Fixpoint lookup (k : string) (d : dict) : option value :=
  match d with
  | [] => None
  | (k', v) :: d' => if String.eqb k k' then Some v else lookup k d'
  end.

(** [k in d]. *)
Definition has_key (k : string) (d : dict) : bool :=
  match lookup k d with
  | Some _ => true
  | None => false
  end.

(** [d.get(k, default)]. *)
Definition get (d : dict) (k : string) (default : value) : value :=
  match lookup k d with
  | Some v => v
  | None => default
  end.

(** [v.get(k, default)] on any value: only a dict has [get]
    (AttributeError otherwise). *)
Definition vget (v : value) (k : string) (default : value) : option value :=
  match v with
  | VDict d => Some (get d k default)
  | _ => None
  end.

(** Python truthiness. *)
Definition truthy (v : value) : bool :=
  match v with
  | VNone => false
  | VBool b => b
  | VInt n => negb (Z.eqb n 0)
  | VStr s => negb (String.eqb s EmptyString)
  | VList l => match l with [] => false | _ => true end
  | VDict d => match d with [] => false | _ => true end
  end.

(** [v == s] for a string literal [s]. *)
Definition is_str (v : value) (s : string) : bool :=
  match v with
  | VStr s' => String.eqb s' s
  | _ => false
  end.

(** [v in (s1, s2, ...)] for string literals. *)
Definition str_in (v : value) (l : list string) : bool :=
  existsb (is_str v) l.

(** [isinstance(v, dict)]. *)
Definition isinstance_dict (v : value) : bool :=
  match v with
  | VDict _ => true
  | _ => false
  end.

(** The elements a [for] loop sees: a list's items, a dict's keys, a
    string's characters; the other values are not iterable (TypeError). *)
Definition py_iter (v : value) : option (list value) :=
  match v with
  | VList l => Some l
  | VDict d => Some (map (fun kv => VStr (fst kv)) d)
  | VStr s => Some (map (fun c => VStr (str1 c)) (list_ascii_of_string s))
  | _ => None
  end.

(** [len(v)]. *)
Definition py_len (v : value) : option nat :=
  option_map (@List.length value) (py_iter v).

(** [a < b] against a string [b]: defined between strings only. *)
Definition py_lt_str (a : value) (b : string) : option bool :=
  match a with
  | VStr s => Some (String.ltb s b)
  | _ => None
  end.

(** The strings of a list of values; [None] when one is not a string. *)
Fixpoint all_str (l : list value) : option (list string) :=
  match l with
  | [] => Some []
  | VStr s :: t => option_map (cons s) (all_str t)
  | _ :: _ => None
  end.

(** [sep.join(v)]: every element has to be a string (TypeError). *)
Definition py_join (sep : string) (v : value) : option string :=
  match py_iter v with
  | Some l => option_map (join sep) (all_str l)
  | None => None
  end.

(** [str(i)] for a natural number. *)
Definition str_of_nat (i : nat) : string :=
  NilEmpty.string_of_uint (Nat.to_uint i).

(** ASCII whitespace as [str.strip] and [int] see it. *)
Definition is_space (c : ascii) : bool :=
  let n := nat_of_ascii c in
  (((9 <=? n) && (n <=? 13)) || ((28 <=? n) && (n <=? 32)))%nat.

Fixpoint lstrip (s : string) : string :=
  match s with
  | EmptyString => EmptyString
  | String c t => if is_space c then lstrip t else s
  end.

Fixpoint rstrip (s : string) : string :=
  match s with
  | EmptyString => EmptyString
  | String c t =>
      match rstrip t with
      | EmptyString => if is_space c then EmptyString else str1 c
      | t' => String c t'
      end
  end.

(** [s.strip()]. *)
Definition strip (s : string) : string := rstrip (lstrip s).

Definition digit_val (c : ascii) : option Z :=
  let n := nat_of_ascii c in
  if ((48 <=? n) && (n <=? 57))%nat then Some (Z.of_nat n - 48)%Z else None.

(** [s.isdigit()] on ASCII text. *)
Definition isdigit (s : string) : bool :=
  match s with
  | EmptyString => false
  | _ => forallb (fun c => match digit_val c with Some _ => true | None => false end)
           (list_ascii_of_string s)
  end.

(** The digits of a decimal literal, single underscores allowed between
    digits; [seen] tells that the previous character was a digit. *)
Fixpoint digits_value (acc : Z) (seen : bool) (s : string) : option Z :=
  match s with
  | EmptyString => if seen then Some acc else None
  | String c t =>
      match digit_val c with
      | Some d => digits_value (10 * acc + d)%Z true t
      | None =>
          if Ascii.eqb c "_" && seen then digits_value acc false t else None
      end
  end.

(** [int(s)]: surrounding whitespace, an optional sign, decimal digits;
    [None] is ValueError. *)
Definition py_int (s : string) : option Z :=
  match strip s with
  | String "+" t => digits_value 0 false t
  | String "-" t => option_map Z.opp (digits_value 0 false t)
  | t => digits_value 0 false t
  end.

(** ** The option monad for code that may raise *)

Definition bind {A B : Type} (m : option A) (f : A -> option B) : option B :=
  match m with
  | Some x => f x
  | None => None
  end.

Notation "x <- m ;; k" := (bind m (fun x => k))
  (at level 100, m at next level, right associativity).

(** Runs [f] over a list, left to right, collecting the results. *)
Fixpoint mapM {A B : Type} (f : A -> option B) (l : list A) : option (list B) :=
  match l with
  | [] => Some []
  | x :: t => y <- f x ;; ys <- mapM f t ;; Some (y :: ys)
  end.

(** ** Sorting by a (character, integer) key

    Both sorts of the compiler use a key made of the id's first character
    and a number.  Python compares the tuples lexicographically, characters
    by code point, and its sort is stable; so is this insertion sort. *)

Definition key : Type := (nat * Z)%type.

Definition key_leb (a b : key) : bool :=
  ((fst a <? fst b) || ((fst a =? fst b) && (snd a <=? snd b)%Z))%nat.

Fixpoint insert_by {A : Type} (k : key) (x : A) (l : list (key * A))
  : list (key * A) :=
  match l with
  | [] => [(k, x)]
  | (k', y) :: t =>
      if key_leb k k' then (k, x) :: (k', y) :: t
      else (k', y) :: insert_by k x t
  end.

Fixpoint sort_by {A : Type} (l : list (key * A)) : list (key * A) :=
  match l with
  | [] => []
  | (k, x) :: t => insert_by k x (sort_by t)
  end.

(** [sorted(l, key=f)]: the key of every element is computed first, and an
    exception in [f] is an exception of the sort. *)
Definition py_sorted {A : Type} (f : A -> option key) (l : list A)
  : option (list A) :=
  ks <- mapM (fun x => k <- f x ;; Some (k, x)) l ;;
  Some (map snd (sort_by ks)).

(** ** Data classes (lines 34-126) *)

Definition SEVERITIES : list string := ["NEVER"; "MUST"; "SHOULD"; "GUIDANCE"].

Record SourceReference := {
  url : value;
  accessed : value;
  quote : value
}.

Record SupersededBy := {
  replacement : value;
  sup_version : value;
  sup_date : value;
  sup_note : value
}.

Record RuleProvenance := {
  last_verified : value;
  confidence : value;
  re_verify_after : value;
  sources : list SourceReference;
  superseded_by : option SupersededBy
}.

Record DomainProvenance := {
  last_full_audit : value;
  audited_by : value;
  next_audit_due : value;
  sources_consulted : list value;
  coverage : value
}.

(** A rule as [parse_rules] stores it: the id is the key of the rules
    mapping, every other field holds whatever the YAML file gave. *)
Record Rule := {
  id : string;
  title : value;
  severity : value;
  mechanical : value;
  description : value;
  note : value;
  check : value;
  examples : value;
  api_files_only : value;
  provenance : option RuleProvenance
}.

Record DomainSpec := {
  domain : value;
  version : value;
  spec_description : value;
  file_patterns : value;
  api_file_detection : value;
  rules : list (string * Rule);
  schema_version : value;
  spec_provenance : option DomainProvenance;
  patterns : value;
  info : value;
  anti_patterns : value;
  spec_sources : value;
  exclude_patterns : value
}.

(** [r.id[0]] and [r.id[1:]]; an empty id has no first character
    (IndexError). *)
Definition id_head (i : string) : option ascii :=
  match i with
  | EmptyString => None
  | String c _ => Some c
  end.

Definition id_tail (i : string) : string :=
  match i with
  | EmptyString => EmptyString
  | String _ t => t
  end.



(** [DomainSpec.mechanical_rules] (lines 108-110). *)
Definition mechanical_rules (spec : DomainSpec) : list Rule :=
  filter (fun r => truthy (mechanical r)) (map snd (rules spec)).

(** ** Parsing (lines 128-203, 315-336) *)

Definition parse_source (src : value) : list SourceReference :=
  match src with
  | VDict d =>
      [{| url := get d "url" (VStr EmptyString);
          accessed := get d "accessed" VNone;
          quote := get d "quote" VNone |}]
  | VStr _ => [{| url := src; accessed := VNone; quote := VNone |}]
  | _ => []
  end.

Definition parse_rule_provenance (prov_data : value) : option RuleProvenance :=
  srcs_v <- vget prov_data "sources" (VList []) ;;
  srcs <- py_iter srcs_v ;;
  sup_data <- vget prov_data "superseded_by" VNone ;;
  lv <- vget prov_data "last_verified" VNone ;;
  conf <- vget prov_data "confidence" (VStr "high") ;;
  rv <- vget prov_data "re_verify_after" VNone ;;
  Some {| last_verified := lv;
          confidence := conf;
          re_verify_after := rv;
          sources := flat_map parse_source srcs;
          superseded_by :=
            match sup_data with
            | VDict (_ :: _ as d) =>
                Some {| replacement := get d "replacement" (VStr EmptyString);
                        sup_version := get d "version" (VStr EmptyString);
                        sup_date := get d "date" VNone;
                        sup_note := get d "note" VNone |}
            | _ => None
            end |}.



Definition parse_rule (rule_id : string) (rule_data : dict) : option Rule :=
  prov <- match lookup "provenance" rule_data with
          | Some p => option_map Some (parse_rule_provenance p)
          | None => Some None
          end ;;
  Some {| id := rule_id;
          title := get rule_data "title" (VStr EmptyString);
          severity := get rule_data "severity" (VStr "GUIDANCE");
          mechanical := get rule_data "mechanical" (VBool false);
          description := get rule_data "description" (VStr EmptyString);
          note := get rule_data "note" (VStr EmptyString);
          check := get rule_data "check" (VDict []);
          examples := get rule_data "examples" (VDict []);
          api_files_only := get rule_data "api_files_only" (VBool false);
          provenance := prov |}.

Fixpoint parse_rule_items (items : dict) : option (list (string * Rule)) :=
  match items with
  | [] => Some []
  | (rule_id, VDict rule_data) :: rest =>
      r <- parse_rule rule_id rule_data ;;
      rs <- parse_rule_items rest ;;
      Some ((rule_id, r) :: rs)
  | _ :: rest => parse_rule_items rest
  end.

Definition parse_rules (rules_data : value) : option (list (string * Rule)) :=
  match rules_data with
  | VDict items => parse_rule_items items
  | _ => None
  end.


(** ** Sample instances of what the embedding takes from outside

    A runtime whose [str] prints nothing for a value that is not a string,
    a pattern engine that accepts every pattern, a date, and empty header,
    detection and info texts. *)

Definition sample_repr (v : value) : string := EmptyString.
Definition sample_re (p : string) : bool := true.
Definition sample_today : string := "2026-01-01".

Section Compiler.

Set Default Proof Using "Type".

(** What the embedding takes from the Python runtime and from the parts of
    the compiler that only produce fixed text:
    - [py_repr_other v] is [str(v)] for a value that is not a string (the
      text an f-string inserts for it);
    - [re_compiles p] tells whether [re.compile(p)] accepts the pattern;
    - [today] is [date.today().isoformat()];
    - the header, the API-file detection and the info section of the
      generated script, whose text no rule block depends on. *)
Variable py_repr_other : value -> string.
Variable re_compiles : string -> bool.
Variable today : string.
Variable generate_sh_header : DomainSpec -> string.
Variable generate_api_file_detection : DomainSpec -> string.
Variable generate_info_section : DomainSpec -> string.

(** The text an f-string inserts for [v]. *)
Definition fmt (v : value) : string :=
  match v with
  | VStr s => s
  | _ => py_repr_other v
  end.

(** ** Validation (lines 206-312, 1111-1127) *)

(** [validate_regex_pattern]: [re.error] is caught and reported as
    [false]; a pattern that is not a string makes [re.compile] raise
    TypeError, which is not caught.  The diagnostics printed to stderr are
    not modelled. *)
Definition validate_regex_pattern (pattern : value) : option bool :=
  match pattern with
  | VStr p => Some (re_compiles p)
  | _ => None
  end.

(** The errors of the patterns of a multi-condition check's conditions,
    numbered from [i] (lines 267-272). *)
Fixpoint validate_conditions (dom rule_id : string) (i : nat)
  (conds : list value) : option (list string) :=
  match conds with
  | [] => Some []
  | cond :: rest =>
      pattern <- vget cond "pattern" (VStr EmptyString) ;;
      e <- (if truthy pattern then
              ok <- validate_regex_pattern pattern ;;
              Some (if ok then []
                    else [dom ++ ".flight: Rule " ++ rule_id ++ " condition "
                            ++ str_of_nat i ++ " has invalid regex pattern"])
            else Some []) ;;
      es <- validate_conditions dom rule_id (S i) rest ;;
      Some (e ++ es)%list
  end.

Definition valid_types : list string :=
  ["grep"; "presence"; "script"; "multi-condition"; "file_exists"].

(** The errors of one rule's check (lines 247-272). *)
Definition validate_check (dom rule_id : string) (chk : value)
  : option (list string) :=
  if truthy chk then
    check_type <- vget chk "type" VNone ;;
    let e1 :=
      if truthy check_type && negb (str_in check_type valid_types)
      then [dom ++ ".flight: Rule " ++ rule_id ++ " has unknown check type '"
              ++ fmt check_type ++ "'"]
      else [] in
    e2 <- (if str_in check_type ["grep"; "presence"] then
             pattern <- vget chk "pattern" (VStr EmptyString) ;;
             if truthy pattern then
               ok <- validate_regex_pattern pattern ;;
               Some (if ok then []
                     else [dom ++ ".flight: Rule " ++ rule_id
                             ++ " has invalid regex pattern"])
             else Some []
           else Some []) ;;
    e3 <- (if is_str check_type "multi-condition" then
             conds_v <- vget chk "conditions" (VList []) ;;
             conds <- py_iter conds_v ;;
             validate_conditions dom rule_id 0 conds
           else Some []) ;;
    Some (e1 ++ e2 ++ e3)%list
  else Some [].

(** The provenance warnings of one rule (lines 274-290). *)
Definition rule_warnings (dom rule_id : string) (rule_data : dict)
  : option (list string) :=
  let prov := get rule_data "provenance" (VDict []) in
  if truthy (get rule_data "mechanical" VNone) then
    srcs <- vget prov "sources" VNone ;;
    let w1 :=
      if negb (truthy srcs)
      then [dom ++ ".flight: Rule " ++ rule_id ++ " has no sources (unverifiable)"]
      else [] in
    re_verify <- vget prov "re_verify_after" VNone ;;
    w2 <- (if truthy re_verify then
             old <- py_lt_str re_verify today ;;
             Some (if old
                   then [dom ++ ".flight: Rule " ++ rule_id ++ " is stale (due "
                           ++ fmt re_verify ++ ")"]
                   else [])
           else Some []) ;;
    conf <- vget prov "confidence" (VStr "high") ;;
    let w3 :=
      if is_str conf "low"
      then [dom ++ ".flight: Rule " ++ rule_id ++ " has low confidence"]
      else [] in
    Some (w1 ++ w2 ++ w3)%list
  else Some [].

(** The errors of one rule before its check is looked at (lines 228-245). *)
Definition rule_field_errors (dom rule_id : string) (rule_data : dict)
  : list string :=
  let sev := get rule_data "severity" (VStr EmptyString) in
  List.concat
    [ if has_key "title" rule_data then []
      else [dom ++ ".flight: Rule " ++ rule_id ++ " missing 'title'"];
      if has_key "severity" rule_data then []
      else [dom ++ ".flight: Rule " ++ rule_id ++ " missing 'severity'"];
      if truthy sev && negb (str_in sev SEVERITIES)
      then [dom ++ ".flight: Rule " ++ rule_id ++ " has invalid severity '"
              ++ fmt sev ++ "'"]
      else [];
      if truthy (get rule_data "mechanical" VNone)
         && negb (truthy (get rule_data "check" VNone))
      then [dom ++ ".flight: Rule " ++ rule_id
              ++ " has mechanical:true but no check config"]
      else [] ].

(** One turn of the loop over the rules (lines 224-290): the errors and the
    warnings the rule adds.  A rule that is not a mapping is skipped. *)
Definition validate_rule (dom rule_id : string) (rule_data : value)
  : option (list string * list string) :=
  match rule_data with
  | VDict rd =>
      ce <- validate_check dom rule_id (get rd "check" (VDict [])) ;;
      ws <- rule_warnings dom rule_id rd ;;
      Some ((rule_field_errors dom rule_id rd ++ ce)%list, ws)
  | _ => Some ([], [])
  end.

Fixpoint validate_rules (dom : string) (items : dict)
  : option (list string * list string) :=
  match items with
  | [] => Some ([], [])
  | (rule_id, rule_data) :: rest =>
      ew <- validate_rule dom rule_id rule_data ;;
      ews <- validate_rules dom rest ;;
      Some ((fst ew ++ fst ews)%list, (snd ew ++ snd ews)%list)
  end.

(** The errors of the info section (lines 292-301). *)
Fixpoint validate_info (dom : string) (items : dict) : option (list string) :=
  match items with
  | [] => Some []
  | (info_id, VDict cfg) :: rest =>
      let pattern := get cfg "pattern" (VStr EmptyString) in
      e <- (if truthy pattern then
              ok <- validate_regex_pattern pattern ;;
              Some (if ok then []
                    else [dom ++ ".flight: Info " ++ info_id
                            ++ " has invalid regex pattern"])
            else Some []) ;;
      es <- validate_info dom rest ;;
      Some (e ++ es)%list
  | _ :: rest => validate_info dom rest
  end.

(** The domain-level provenance warning (lines 303-310). *)
Definition domain_warnings (dom : string) (data : dict) : option (list string) :=
  let domain_prov := get data "provenance" (VDict []) in
  if truthy domain_prov then
    next_audit <- vget domain_prov "next_audit_due" VNone ;;
    if truthy next_audit then
      old <- py_lt_str next_audit today ;;
      Some (if old
            then [dom ++ ".flight: Domain audit overdue (due "
                    ++ fmt next_audit ++ ")"]
            else [])
    else Some []
  else Some [].

(** [validate_spec(data, domain)]: the errors and the warnings, or [None]
    when the validator itself raises. *)
Definition validate_spec (data : value) (dom : string)
  : option (list string * list string) :=
  match data with
  | VDict d =>
      let e0 :=
        List.concat
          [ if has_key "domain" d then []
            else [dom ++ ".flight: Missing required field 'domain'"];
            if has_key "rules" d then []
            else [dom ++ ".flight: Missing required field 'rules'"] ] in
      match get d "rules" (VDict []), get d "info" (VDict []) with
      | VDict rule_items, VDict info_items =>
          ew <- validate_rules dom rule_items ;;
          ie <- validate_info dom info_items ;;
          dw <- domain_warnings dom d ;;
          Some ((e0 ++ fst ew ++ ie)%list, (snd ew ++ dw)%list)
      | _, _ => None
      end
  | _ => None
  end.

(** ** Shell script generator (lines 698-895) *)

Definition nl : string := str1 newline.

(** The quoted array expansions the fragments end with. *)
Definition FILES_ref : string := "${FILES[@]}".
Definition API_FILES_ref : string := "${API_ENDPOINT_FILES[@]}".

(** [flags[1:]] as an f-string shows it: the tail of a string, the text of
    the tail of a list; the other values cannot be sliced (TypeError). *)
Definition flags_tail (flags : value) : option string :=
  match flags with
  | VStr s => Some (id_tail s)
  | VList l => Some (fmt (VList (tl l)))
  | _ => None
  end.

(** A string-typed argument: the string methods the code calls exist on
    strings only (AttributeError otherwise). *)
Definition as_str (v : value) : option string :=
  match v with
  | VStr s => Some s
  | _ => None
  end.

(** The [grep -q...] test of one condition of a multi-condition check. *)
Definition condition_check (cond : value) : option string :=
  pattern <- vget cond "pattern" (VStr EmptyString) ;;
  flags <- vget cond "flags" (VStr "-Ei") ;;
  p <- as_str pattern ;;
  ft <- flags_tail flags ;;
  Some ("grep -q" ++ ft ++ " " ++ q ++ escape_pattern_for_bash_c p ++ q
          ++ " " ++ q ++ "$f" ++ q).

(** [generate_check_command(rule)]. *)
Definition generate_check_command (rule : Rule) : option string :=
  let chk := check rule in
  check_type <- vget chk "type" (VStr EmptyString) ;;
  if is_str check_type "grep" then
    pattern <- vget chk "pattern" (VStr EmptyString) ;;
    flags <- vget chk "flags" (VStr "-E") ;;
    flags <- match flags with
             | VList l => option_map (fun s => VStr (join " " s)) (all_str l)
             | _ => Some flags
             end ;;
    p <- as_str pattern ;;
    Some ("grep " ++ fmt flags ++ " " ++ q ++ escape_bash_pattern p ++ q
            ++ " " ++ q ++ FILES_ref ++ q)
  else if is_str check_type "presence" then
    pattern <- vget chk "pattern" (VStr EmptyString) ;;
    flags <- vget chk "flags" (VStr "-l") ;;
    message <- vget chk "message" (VStr "Pattern not found") ;;
    p <- as_str pattern ;;
    m <- as_str message ;;
    f <- as_str flags ;;
    Some ("bash -c 'grep -q" ++ (if prefix "-" f then id_tail f else f)
            ++ " " ++ q ++ escape_pattern_for_bash_c p ++ q
            ++ " " ++ q ++ "$@" ++ q
            ++ " || echo " ++ q ++ escape_for_single_quotes m ++ q
            ++ "' _ " ++ q ++ FILES_ref ++ q)
  else if is_str check_type "script" then
    code <- vget chk "code" (VStr EmptyString) ;;
    c <- as_str code ;;
    Some ("bash -c '" ++ replace "'" ("'" ++ q ++ "'" ++ q ++ "'") (strip c)
            ++ "' _ " ++ q ++ FILES_ref ++ q)
  else if is_str check_type "multi-condition" then
    logic <- vget chk "logic" (VStr "AND") ;;
    conditions <- vget chk "conditions" (VList []) ;;
    n <- py_len conditions ;;
    if (n <? 2)%nat then Some "# multi-condition with < 2 conditions"
    else
      conds <- py_iter conditions ;;
      checks <- mapM condition_check conds ;;
      let operator := if is_str logic "AND" then " && " else " || " in
      let combined := join operator checks in
      Some ("bash -c '" ++ nl
              ++ "        for f in " ++ q ++ "$@" ++ q ++ "; do" ++ nl
              ++ "            if " ++ combined ++ " 2>/dev/null; then" ++ nl
              ++ "                echo " ++ q ++ "$f: condition matched" ++ q ++ nl
              ++ "            fi" ++ nl
              ++ "        done" ++ nl
              ++ "    ' _ " ++ q ++ FILES_ref ++ q)
  else if is_str check_type "file_exists" then
    paths <- vget chk "paths" (VList []) ;;
    message <- vget chk "message" (VStr "Required files not found") ;;
    path_list <- py_join " " paths ;;
    Some ("bash -c '" ++ nl
            ++ "            if ! ls " ++ path_list
            ++ " 2>/dev/null | head -1 | grep -q .; then" ++ nl
            ++ "                echo " ++ q ++ fmt message ++ q ++ nl
            ++ "            fi" ++ nl
            ++ "        ' ")
  else
    Some ("# Unknown check type: " ++ fmt check_type).

(** The wrapper a rule is run under (line 776). *)
Definition rule_func (rule : Rule) : string :=
  if str_in (severity rule) ["NEVER"; "MUST"] then "check" else "warn".

(** [generate_rule_sh(rule)]. *)
Definition generate_rule_sh (rule : Rule) : option string :=
  if negb (truthy (mechanical rule)) then Some EmptyString
  else
    let func := rule_func rule in
    t <- as_str (title rule) ;;
    let escaped_title := replace "$" "\$" t in
    let title := id rule ++ ": " ++ escaped_title in
    cmd <- generate_check_command rule ;;
    let cmd :=
      if truthy (api_files_only rule) && contains FILES_ref cmd
      then replace FILES_ref API_FILES_ref cmd
      else cmd in
    if truthy (api_files_only rule) then
      Some (nl
        ++ "# " ++ id rule ++ ": " ++ t ++ nl
        ++ "if [[ ${#API_ENDPOINT_FILES[@]} -gt 0 ]]; then" ++ nl
        ++ "    " ++ func ++ " " ++ q ++ title ++ q ++ " \" ++ nl
        ++ "        " ++ cmd ++ nl
        ++ "else" ++ nl
        ++ "    green " ++ q ++ "✅ " ++ title
        ++ " (skipped - no API endpoint files)" ++ q ++ nl
        ++ "    ((PASS++)) || true" ++ nl
        ++ "fi" ++ nl)
    else
      Some (nl
        ++ "# " ++ id rule ++ ": " ++ t ++ nl
        ++ func ++ " " ++ q ++ title ++ q ++ " \" ++ nl
        ++ "    " ++ cmd ++ nl).








(** ** Rule database generator (lines 903-1026) *)

Definition DOMAIN_TO_LANGUAGE : list (string * string) :=
  [("javascript", "javascript"); ("typescript", "typescript");
   ("python", "python"); ("go", "go"); ("rust", "rust");
   ("react", "javascript"); ("nextjs", "javascript")].

(** [sub in pattern] for a string literal [sub]. *)
Definition py_in (sub : string) (pattern : value) : option bool :=
  match pattern with
  | VStr s => Some (contains sub s)
  | VList l => Some (existsb (fun v => is_str v sub) l)
  | VDict d => Some (has_key sub d)
  | _ => None
  end.

Definition any_in (subs : list string) (pattern : value) : option bool :=
  option_map (existsb (fun b : bool => b)) (mapM (fun s => py_in s pattern) subs).

Fixpoint infer_from_patterns (pats : list value) : option string :=
  match pats with
  | [] => Some "unknown"
  | p :: rest =>
      js <- any_in [".js"; ".mjs"; ".cjs"] p ;;
      if js then Some "javascript" else
      ts <- any_in [".ts"; ".tsx"] p ;;
      if ts then Some "typescript" else
      py <- py_in ".py" p ;;
      if py then Some "python" else
      go <- py_in ".go" p ;;
      if go then Some "go" else
      rs <- py_in ".rs" p ;;
      if rs then Some "rust" else infer_from_patterns rest
  end.

(** [infer_language_from_domain]; a list or a mapping is no dictionary key
    (TypeError). *)
Definition infer_language_from_domain (domain_name fpatterns : value)
  : option string :=
  match domain_name with
  | VList _ | VDict _ => None
  | _ =>
      match (match domain_name with
             | VStr d => find (fun kv => String.eqb (fst kv) d) DOMAIN_TO_LANGUAGE
             | _ => None
             end) with
      | Some kv => Some (snd kv)
      | None => pats <- py_iter fpatterns ;; infer_from_patterns pats
      end
  end.

(** One entry of the [rules] array.  [jprovenance] is [None] when the key
    is left out of the entry. *)
Record json_rule := {
  jid : string;
  jtitle : value;
  jseverity : value;
  jtype : string;
  jpattern : value;
  jquery : value;
  jmessage : value;
  jprovenance : option dict
}.

(** The entries of a provenance object: the truthy fields only. *)
Definition prov_entries (fields : list (string * value)) : dict :=
  filter (fun kv => truthy (snd kv)) fields.

Definition nonempty_dict (d : dict) : option dict :=
  match d with
  | [] => None
  | _ => Some d
  end.

(** [convert_check_to_rule(rule)]: the outer option is an exception, the
    inner one Python's [None]. *)
Definition convert_check_to_rule (rule : Rule) : option (option json_rule) :=
  if negb (truthy (mechanical rule)) then Some None
  else
    check_type <- vget (check rule) "type" (VStr "grep") ;;
    if negb (str_in check_type ["grep"; "presence"]) then Some None
    else
      pattern <- vget (check rule) "pattern" (VStr EmptyString) ;;
      message <- (if truthy (description rule)
                  then option_map (fun d => VStr (strip d)) (as_str (description rule))
                  else Some (title rule)) ;;
      Some (Some {|
        jid := id rule;
        jtitle := title rule;
        jseverity := severity rule;
        jtype := "grep";
        jpattern := pattern;
        jquery := VNone;
        jmessage := message;
        jprovenance :=
          match provenance rule with
          | Some p =>
              nonempty_dict (prov_entries
                [("last_verified", last_verified p);
                 ("confidence", confidence p);
                 ("re_verify_after", re_verify_after p)])
          | None => None
          end |}).

(** The entries of the rules of the spec, in declaration order (lines
    985-989). *)
Fixpoint convert_rules (rs : list Rule) : option (list json_rule) :=
  match rs with
  | [] => Some []
  | r :: rest =>
      j <- convert_check_to_rule r ;;
      js <- convert_rules rest ;;
      Some (match j with Some e => e :: js | None => js end)
  end.

(** The key [sort_key] computes from the entry's id (lines 993-996). *)
Definition id_sort_key (rule_id : string) : option key :=
  prefix_char <- id_head rule_id ;;
  let numeric_part := id_tail rule_id in
  n <- (if isdigit numeric_part then py_int numeric_part else Some 0%Z) ;;
  Some (nat_of_ascii prefix_char, n).

(** [sort_key] of [generate_rules_json] (lines 992-996). *)
Definition sort_key (rule_entry : json_rule) : option key :=
  id_sort_key (jid rule_entry).

(** The sorted [rules] array of the rule database. *)
Definition exported_rules (spec : DomainSpec) : option (list json_rule) :=
  rules_list <- convert_rules (map snd (rules spec)) ;;
  py_sorted sort_key rules_list.

(** The top-level object of the rule database; an optional key that is
    left out is [None]. *)
Record rules_file := {
  rf_domain : value;
  rf_version : value;
  rf_language : string;
  rf_file_patterns : value;
  rf_exclude_patterns : option value;
  rf_provenance : option dict;
  rf_rules : list json_rule
}.

(** [generate_rules_json(spec)], up to the final [json.dumps]: the object
    that is serialised. *)
Definition generate_rules_json (spec : DomainSpec) : option rules_file :=
  rules_list <- exported_rules spec ;;
  language <- infer_language_from_domain (domain spec) (file_patterns spec) ;;
  Some {|
    rf_domain := domain spec;
    rf_version := version spec;
    rf_language := language;
    rf_file_patterns := file_patterns spec;
    rf_exclude_patterns :=
      if truthy (exclude_patterns spec) then Some (exclude_patterns spec)
      else None;
    rf_provenance :=
      match spec_provenance spec with
      | Some p =>
          nonempty_dict (prov_entries
            [("last_full_audit", last_full_audit p);
             ("audited_by", audited_by p);
             ("next_audit_due", next_audit_due p)])
      | None => None
      end;
    rf_rules := rules_list |}.

(** ** Running the generated script

    The script keeps three counters.  Its [check] and [warn] functions
    (header, lines 542-570) run the words after the rule's name as a
    command, with stdout captured and stderr dropped: no output counts a
    pass, any output a failure ([check]) or a warning ([warn]).  The footer
    ends the script with [exit $FAIL] (line 855); the status a process
    leaves is the low eight bits of that number. *)












(** ** Sample rules *)

(** A mechanical rule with the given id, severity and check. *)
Definition mk_rule (rule_id sev : string) (chk : value) : Rule :=
  {| id := rule_id;
     title := VStr "rule";
     severity := VStr sev;
     mechanical := VBool true;
     description := VStr EmptyString;
     note := VStr EmptyString;
     check := chk;
     examples := VDict [];
     api_files_only := VBool false;
     provenance := None |}.

Definition grep_rule (pattern : string) : Rule :=
  mk_rule "N1" "NEVER" (VDict [("type", VStr "grep"); ("pattern", VStr pattern)]).

Definition presence_rule (pattern : string) : Rule :=
  mk_rule "M1" "MUST" (VDict [("type", VStr "presence"); ("pattern", VStr pattern)]).

(** ** Messages and sample inputs of the validator *)

Definition mechanical_msg (dom rule_id : string) : string :=
  dom ++ ".flight: Rule " ++ rule_id ++ " has mechanical:true but no check config".

Definition unknown_type_msg (dom rule_id check_type : string) : string :=
  dom ++ ".flight: Rule " ++ rule_id ++ " has unknown check type '"
    ++ check_type ++ "'".

Definition no_sources_msg (dom rule_id : string) : string :=
  dom ++ ".flight: Rule " ++ rule_id ++ " has no sources (unverifiable)".

(** A condition of a multi-condition check whose pattern, when it has
    one, is accepted by the pattern engine. *)
Definition cond_ok (cond : value) : bool :=
  match cond with
  | VDict cd =>
      match get cd "pattern" (VStr EmptyString) with
      | VStr p => String.eqb p EmptyString || re_compiles p
      | v => negb (truthy v)
      end
  | _ => false
  end.

(** The raw mapping of a mechanical NEVER rule with the given check. *)
Definition raw_rule (chk : value) : value :=
  VDict [("title", VStr "rule"); ("severity", VStr "NEVER");
         ("mechanical", VBool true); ("check", chk)].

(** The raw mapping of a domain with the given rules. *)
Definition raw_spec (name : string) (rule_items : dict) : value :=
  VDict [("domain", VStr name); ("version", VStr "1.0.0");
         ("file_patterns", VList [VStr "**/*.js"]);
         ("rules", VDict rule_items)].

(** One rule with an ast check that carries a query. *)
Definition ast_spec : value :=
  raw_spec "ast-only"
    [("N1", raw_rule (VDict [("type", VStr "ast");
                             ("query", VStr "(call_expression)")]))].

(** A grep and a presence check without pattern, and a multi-condition
    check with a single condition. *)
Definition structural_spec : value :=
  raw_spec "demo"
    [("N1", raw_rule (VDict [("type", VStr "grep")]));
     ("N2", raw_rule (VDict [("type", VStr "presence")]));
     ("N3", raw_rule (VDict [("type", VStr "multi-condition");
                             ("conditions",
                              VList [VDict [("pattern", VStr "eval")]])]))].



(** A title: as [dq_plain], but a [$] is allowed (the generator escapes
    it). *)
Definition title_plain (s : string) : bool :=
  forallb (fun c => negb (mem_ascii c [backtick; dquote; backslash; newline]))
    (list_ascii_of_string s).

(** ** Order of sorted rules *)

Definition key_le (a b : key) : Prop := key_leb a b = true.

(** [x] may stand before [y] in a list sorted by the key [f]. *)
Definition by_key {A : Type} (f : A -> option key) (x y : A) : Prop :=
  match f x, f y with
  | Some a, Some b => key_le a b
  | _, _ => False
  end.

(** Pairs ordered by their key. *)
Definition fst_le {A : Type} (p r : key * A) : Prop := key_le (fst p) (fst r).




(** ** Sample specs *)

Definition mk_spec (name : string) (rs : list Rule) : DomainSpec :=
  {| domain := VStr name;
     version := VStr "1.0.0";
     spec_description := VStr EmptyString;
     file_patterns := VList [VStr "**/*.js"];
     api_file_detection := VDict [];
     rules := map (fun r => (id r, r)) rs;
     schema_version := VInt 1;
     spec_provenance := None;
     patterns := VDict [];
     info := VDict [];
     anti_patterns := VList [];
     spec_sources := VList [];
     exclude_patterns := VList [] |}.

Definition grep_check (pattern : string) : value :=
  VDict [("type", VStr "grep"); ("pattern", VStr pattern)].

Definition script_check : value :=
  VDict [("type", VStr "script"); ("code", VStr "true")].

(** Two NEVER rules declared as N2, N1. *)
Definition order_spec : DomainSpec :=
  mk_spec "demo" [mk_rule "N2" "NEVER" (grep_check "b");
                  mk_rule "N1" "NEVER" (grep_check "a")].

(** One mechanical rule with a script check. *)
Definition script_spec : DomainSpec :=
  mk_spec "demo" [mk_rule "N1" "NEVER" script_check].




(** ** Counting what a run reports *)





(** ** Provenance queries (lines 112-125) *)

(** The test of [stale_rules] on one rule; comparing a date that is not a
    string with [today] raises (TypeError). *)
Definition is_stale (r : Rule) : option bool :=
  match provenance r with
  | Some p =>
      if truthy (re_verify_after p) then py_lt_str (re_verify_after p) today
      else Some false
  | None => Some false
  end.

Fixpoint filterM {A : Type} (f : A -> option bool) (l : list A)
  : option (list A) :=
  match l with
  | [] => Some []
  | x :: t =>
      b <- f x ;;
      r <- filterM f t ;;
      Some (if b then x :: r else r)
  end.

(** [DomainSpec.stale_rules]. *)
Definition stale_rules (spec : DomainSpec) : option (list Rule) :=
  filterM is_stale (map snd (rules spec)).

(** The test of [unverified_rules] on one rule. *)
Definition is_unverified (r : Rule) : bool :=
  truthy (mechanical r)
  && match provenance r with
     | None => true
     | Some p => match sources p with [] => true | _ => false end
     end.

(** [DomainSpec.unverified_rules]. *)
Definition unverified_rules (spec : DomainSpec) : list Rule :=
  filter is_unverified (map snd (rules spec)).

(** ** The self-check of the rule database (lines 1029-1052) *)

(** The entry of one rule as the dictionary built on lines 955-977. *)
Definition json_rule_value (j : json_rule) : value :=
  VDict ([("id", VStr (jid j)); ("title", jtitle j);
          ("severity", jseverity j); ("type", VStr (jtype j));
          ("pattern", jpattern j); ("query", jquery j);
          ("message", jmessage j)]
         ++ match jprovenance j with
            | Some p => [("provenance", VDict p)]
            | None => []
            end)%list.

(** The top-level dictionary built on lines 1002-1024, which
    [json.dumps] serialises and [json.loads] reads back. *)
Definition rules_file_value (rf : rules_file) : value :=
  VDict ([("domain", rf_domain rf); ("version", rf_version rf);
          ("language", VStr (rf_language rf));
          ("file_patterns", rf_file_patterns rf)]
         ++ match rf_exclude_patterns rf with
            | Some e => [("exclude_patterns", e)]
            | None => []
            end
         ++ match rf_provenance rf with
            | Some p => [("provenance", VDict p)]
            | None => []
            end
         ++ [("rules", VList (map json_rule_value (rf_rules rf)))])%list.

Definition required_fields : list string :=
  ["domain"; "version"; "language"; "file_patterns"; "rules"].

Definition required_rule_fields : list string :=
  ["id"; "title"; "severity"; "type"; "message"].

(** The first of [fields] that is not in [v]: [Some None] when all are
    there, the outer [None] when [in] itself raises. *)
Fixpoint first_missing (fields : list string) (v : value)
  : option (option string) :=
  match fields with
  | [] => Some None
  | f :: rest =>
      b <- py_in f v ;;
      if b then first_missing rest v else Some (Some f)
  end.

(** The loop over the rule entries (lines 1044-1050): the message of the
    ValueError it raises, if any. *)
Fixpoint check_rule_entries (idx : nat) (entries : list value)
  : option (option string) :=
  match entries with
  | [] => Some None
  | e :: rest =>
      m <- first_missing required_rule_fields e ;;
      match m with
      | Some f =>
          i <- vget e "id" (VStr "unknown") ;;
          Some (Some ("Rule " ++ str_of_nat idx ++ " (id=" ++ fmt i
                        ++ ") missing required field: " ++ f))
      | None => check_rule_entries (S idx) rest
      end
  end.

(** [validate_rules_json] on the parsed JSON: [Some None] when it returns
    True, [Some (Some msg)] when it raises ValueError with [msg], [None]
    for any other exception. *)
Definition validate_rules_json (rules_data : value) : option (option string) :=
  m <- first_missing required_fields rules_data ;;
  match m with
  | Some f => Some (Some ("Missing required field: " ++ f))
  | None =>
      rules_list <- vget rules_data "rules" (VList []) ;;
      entries <- py_iter rules_list ;;
      check_rule_entries 0 entries
  end.

(** ** Messages of the validator, continued *)


Definition stale_msg (dom rule_id due : string) : string :=
  dom ++ ".flight: Rule " ++ rule_id ++ " is stale (due " ++ due ++ ")".

Definition low_confidence_msg (dom rule_id : string) : string :=
  dom ++ ".flight: Rule " ++ rule_id ++ " has low confidence".

Definition missing_domain_msg (dom : string) : string :=
  dom ++ ".flight: Missing required field 'domain'".

Definition missing_rules_msg (dom : string) : string :=
  dom ++ ".flight: Missing required field 'rules'".

(** The languages [infer_language_from_domain] can answer. *)
Definition languages : list string :=
  ["javascript"; "typescript"; "python"; "go"; "rust"; "unknown"].

(** ** More sample rules *)

Definition script_rule (code : string) : Rule :=
  mk_rule "N1" "NEVER" (VDict [("type", VStr "script"); ("code", VStr code)]).

(** The grep rule N1 with the given title. *)
Definition titled_rule (t : string) : Rule :=
  {| id := "N1";
     title := VStr t;
     severity := VStr "NEVER";
     mechanical := VBool true;
     description := VStr EmptyString;
     note := VStr EmptyString;
     check := grep_check "x";
     examples := VDict [];
     api_files_only := VBool false;
     provenance := None |}.

(** What [escape_for_single_quotes] does to one character. *)
Definition sq_char (c : ascii) : string :=
  if Ascii.eqb c squote then "'" ++ q ++ "'" ++ q ++ "'" else str1 c.

(** ** Rules limited to API files *)

(** The character [c] does not occur in [s]. *)
Fixpoint no_char (c : ascii) (s : string) : bool :=
  match s with
  | EmptyString => true
  | String a t => negb (Ascii.eqb a c) && no_char c t
  end.

(** The grep rule N1, limited to API files. *)
Definition api_grep_rule (pattern : string) : Rule :=
  {| id := "N1";
     title := VStr "rule";
     severity := VStr "NEVER";
     mechanical := VBool true;
     description := VStr EmptyString;
     note := VStr EmptyString;
     check := grep_check pattern;
     examples := VDict [];
     api_files_only := VBool true;
     provenance := None |}.

(** ** The scan of [validate_yaml_syntax] (lines 1083-1105) *)

(** The loop over the lines of the YAML validator's output: a failure of
    N1 or N2 counts while the scan is in the NEVER section. *)
Fixpoint critical_failures (in_never_section : bool) (lines : list string)
  : list string :=
  match lines with
  | [] => []
  | line :: rest =>
      if contains "## NEVER Rules" line then critical_failures true rest
      else if prefix "## " line then critical_failures false rest
      else if in_never_section && contains "❌ N1:" line then
        "N1: Tab Characters" :: critical_failures in_never_section rest
      else if in_never_section && contains "❌ N2:" line then
        "N2: Duplicate Keys" :: critical_failures in_never_section rest
      else critical_failures in_never_section rest
  end.

(** What [validate_yaml_syntax] answers once the YAML validator has run
    with the given return code and output lines. *)
Definition yaml_syntax_ok (returncode : Z) (lines : list string) : bool :=
  if negb (Z.eqb returncode 0) then
    match critical_failures false lines with
    | [] => true
    | _ => false
    end
  else true.

(** ** Character-wise view of the escaping functions *)

(** What [escape_bash_pattern] does to one character. *)
Definition esc_char (c : ascii) : string :=
  if mem_ascii c dq_escapable then String backslash (str1 c) else str1 c.

(** What [escape_pattern_for_bash_c] does to one character. *)
Definition esc_char_c (c : ascii) : string :=
  if Ascii.eqb c squote then "'" ++ q ++ "'" ++ q ++ "'" else esc_char c.

Fixpoint flat_str (f : ascii -> string) (s : string) : string :=
  match s with
  | EmptyString => EmptyString
  | String a t => f a ++ flat_str f t
  end.

(** * Properties *)

(** ** Strings *)

Lemma append_nil_r (s : string) : s ++ EmptyString = s.
Proof. induction s as [|a s IH]; simpl; [reflexivity | now rewrite IH]. Qed.

Lemma append_assoc (a b c : string) : (a ++ b) ++ c = a ++ (b ++ c).
Proof. induction a as [|x a IH]; simpl; [reflexivity | now rewrite IH]. Qed.

Lemma append_snoc (w : string) (a : ascii) (t : string) :
  (w ++ str1 a) ++ t = w ++ String a t.
Proof. now rewrite append_assoc. Qed.

Lemma prefix_nil (s : string) : prefix EmptyString s = true.
Proof. now destruct s. Qed.

(** Replacing a single character works character by character. *)
Lemma replace_char_cons (c : ascii) (new : string) (a : ascii) (t : string) :
  replace (str1 c) new (String a t)
  = if Ascii.eqb a c then new ++ replace (str1 c) new t
    else String a (replace (str1 c) new t).
Proof.
  unfold replace, str1. simpl replace_from.
  destruct (ascii_dec c a) as [->|ne].
  - now rewrite prefix_nil, Ascii.eqb_refl.
  - destruct (Ascii.eqb a c) eqn:E; [|reflexivity].
    apply Ascii.eqb_eq in E. congruence.
Qed.

Lemma replace_char_app (c : ascii) (new s1 s2 : string) :
  replace (str1 c) new (s1 ++ s2)
  = replace (str1 c) new s1 ++ replace (str1 c) new s2.
Proof.
  induction s1 as [|a s1 IH]; [reflexivity|].
  change (String a s1 ++ s2) with (String a (s1 ++ s2)).
  rewrite !replace_char_cons, IH.
  destruct (Ascii.eqb a c); [now rewrite append_assoc | reflexivity].
Qed.

Lemma flat_str_app (f : ascii -> string) (s1 s2 : string) :
  flat_str f (s1 ++ s2) = flat_str f s1 ++ flat_str f s2.
Proof.
  induction s1 as [|a s1 IH]; simpl; [reflexivity|].
  now rewrite IH, append_assoc.
Qed.

(** ** Escaping, character by character *)

Ltac ascii_cases a :=
  repeat match goal with
  | |- context [Ascii.eqb a ?c] =>
      let E := fresh "E" in
      destruct (Ascii.eqb a c) eqn:E;
      [apply Ascii.eqb_eq in E; subst a|]
  end.

Lemma escape_bash_pattern_chars (p : string) :
  escape_bash_pattern p = flat_str esc_char p.
Proof.
  unfold escape_bash_pattern.
  change "\" with (str1 backslash); change "$" with (str1 dollar);
    change "`" with (str1 backtick); unfold q at 1.
  induction p as [|a p IH]; [reflexivity|].
  simpl flat_str. rewrite <- IH. clear IH.
  rewrite replace_char_cons.
  destruct (Ascii.eqb a backslash) eqn:E1.
  { apply Ascii.eqb_eq in E1; subst a.
    rewrite !replace_char_app. reflexivity. }
  rewrite replace_char_cons.
  destruct (Ascii.eqb a dquote) eqn:E2.
  { apply Ascii.eqb_eq in E2; subst a.
    rewrite !replace_char_app. reflexivity. }
  rewrite replace_char_cons.
  destruct (Ascii.eqb a dollar) eqn:E3.
  { apply Ascii.eqb_eq in E3; subst a.
    rewrite !replace_char_app. reflexivity. }
  rewrite replace_char_cons.
  destruct (Ascii.eqb a backtick) eqn:E4.
  { apply Ascii.eqb_eq in E4; subst a. reflexivity. }
  unfold esc_char, mem_ascii, dq_escapable. simpl existsb.
  now rewrite E1, E2, E3, E4.
Qed.

Lemma escape_pattern_for_bash_c_chars (p : string) :
  escape_pattern_for_bash_c p = flat_str esc_char_c p.
Proof.
  unfold escape_pattern_for_bash_c.
  change "\" with (str1 backslash); change "$" with (str1 dollar);
    change "`" with (str1 backtick); change "'" with (str1 squote);
    change q with (str1 dquote).
  induction p as [|a p IH]; [reflexivity|].
  simpl flat_str. rewrite <- IH. clear IH.
  rewrite replace_char_cons.
  destruct (Ascii.eqb a backslash) eqn:E1.
  { apply Ascii.eqb_eq in E1; subst a.
    rewrite !replace_char_app. reflexivity. }
  rewrite replace_char_cons.
  destruct (Ascii.eqb a dollar) eqn:E2.
  { apply Ascii.eqb_eq in E2; subst a.
    rewrite !replace_char_app. reflexivity. }
  rewrite replace_char_cons.
  destruct (Ascii.eqb a dquote) eqn:E3.
  { apply Ascii.eqb_eq in E3; subst a.
    rewrite !replace_char_app. reflexivity. }
  rewrite replace_char_cons.
  destruct (Ascii.eqb a backtick) eqn:E4.
  { apply Ascii.eqb_eq in E4; subst a.
    rewrite !replace_char_app. reflexivity. }
  rewrite replace_char_cons.
  unfold esc_char_c.
  destruct (Ascii.eqb a squote) eqn:E5; [reflexivity|].
  unfold esc_char, mem_ascii, dq_escapable. simpl existsb.
  now rewrite E1, E2, E3, E4.
Qed.

(** ** The shell reads an escaped pattern back *)

(** Between double quotes the escaped pattern, up to the closing quote,
    adds exactly the pattern to the word being read. *)
Lemma lex_double_chars (p w rest : string) :
  shell_lex InDouble (Some w) (flat_str esc_char p ++ String dquote rest)
  = shell_lex Unquoted (Some (w ++ p)) rest.
Proof.
  revert w. induction p as [|a p IH]; intro w.
  - simpl. now rewrite append_nil_r.
  - simpl flat_str. rewrite append_assoc. unfold esc_char at 1.
    destruct (mem_ascii a dq_escapable) eqn:M.
    + change (String backslash (str1 a) ++ flat_str esc_char p ++ String dquote rest)
        with (String backslash (String a (flat_str esc_char p ++ String dquote rest))).
      unfold mem_ascii, dq_escapable in M. simpl existsb in M.
      repeat (apply orb_true_iff in M; destruct M as [M|M]);
        try discriminate M;
        apply Ascii.eqb_eq in M; subst a; simpl;
        rewrite IH; now rewrite append_snoc.
    + change (str1 a ++ flat_str esc_char p ++ String dquote rest)
        with (String a (flat_str esc_char p ++ String dquote rest)).
      unfold mem_ascii, dq_escapable in M. simpl existsb in M.
      repeat (apply orb_false_elim in M; destruct M as [? M]).
      simpl shell_lex.
      repeat match goal with H : Ascii.eqb a _ = false |- _ => rewrite H; clear H end.
      simpl. rewrite IH. now rewrite append_snoc.
Qed.

(** Between single quotes the text [escape_pattern_for_bash_c] produces
    adds the text of [escape_bash_pattern] to the word being read, and the
    shell is between single quotes again after it. *)
Lemma lex_single_chars (p w rest : string) :
  shell_lex InSingle (Some w) (flat_str esc_char_c p ++ rest)
  = shell_lex InSingle (Some (w ++ flat_str esc_char p)) rest.
Proof.
  revert w. induction p as [|a p IH]; intro w.
  - simpl. now rewrite append_nil_r.
  - simpl flat_str. rewrite append_assoc. unfold esc_char_c at 1.
    destruct (Ascii.eqb a squote) eqn:S.
    + apply Ascii.eqb_eq in S; subst a.
      simpl. rewrite IH. now rewrite append_snoc.
    + unfold esc_char at 1 2.
      destruct (mem_ascii a dq_escapable) eqn:M.
      * change (String backslash (str1 a) ++ flat_str esc_char_c p ++ rest)
          with (String backslash (String a (flat_str esc_char_c p ++ rest))).
        simpl shell_lex. rewrite S. simpl push. rewrite IH.
        f_equal. f_equal. rewrite !append_assoc. reflexivity.
      * change (str1 a ++ flat_str esc_char_c p ++ rest)
          with (String a (flat_str esc_char_c p ++ rest)).
        simpl shell_lex. rewrite S. simpl push. rewrite IH.
        now rewrite append_assoc.
Qed.

Lemma lex_double_escaped (p w rest : string) :
  shell_lex InDouble (Some w) (escape_bash_pattern p ++ String dquote rest)
  = shell_lex Unquoted (Some (w ++ p)) rest.
Proof. rewrite escape_bash_pattern_chars. apply lex_double_chars. Qed.

Lemma lex_single_escaped (p w rest : string) :
  shell_lex InSingle (Some w) (escape_pattern_for_bash_c p ++ rest)
  = shell_lex InSingle (Some (w ++ escape_bash_pattern p)) rest.
Proof.
  rewrite escape_pattern_for_bash_c_chars, escape_bash_pattern_chars.
  apply lex_single_chars.
Qed.

(** C1.  Round trip of the two escaping contexts.  Direct context: the
    fragment compiled for a grep check embeds [escape_bash_pattern p]
    between double quotes, and the shell, reading that text up to the
    closing quote, adds exactly [p] to the word; so the one command of
    [grep -E <quoted escaped p> f] has the words grep, -E, p, f.  Nested
    context: the fragment compiled for a presence check embeds
    [escape_pattern_for_bash_c p] between double quotes inside a
    single-quoted [bash -c] argument; the outer shell reads that argument
    as a script whose pattern text is [escape_bash_pattern p], and the
    inner shell reads the pattern of that script as exactly [p]. *)
Theorem escape_roundtrip (p : string) :
  generate_check_command (grep_rule p)
  = Some ("grep -E " ++ q ++ escape_bash_pattern p ++ q ++ " " ++ q ++ FILES_ref ++ q)
  /\ (forall w rest,
        shell_lex InDouble (Some w) (escape_bash_pattern p ++ q ++ rest)
        = shell_lex Unquoted (Some (w ++ p)) rest)
  /\ shell_commands ("grep -E " ++ q ++ escape_bash_pattern p ++ q ++ " f")
     = Some [["grep"; "-E"; p; "f"]]
  /\ generate_check_command (presence_rule p)
     = Some ("bash -c 'grep -ql " ++ q ++ escape_pattern_for_bash_c p ++ q
               ++ " " ++ q ++ "$@" ++ q ++ " || echo " ++ q ++ "Pattern not found" ++ q
               ++ "' _ " ++ q ++ FILES_ref ++ q)
  /\ (forall w rest,
        shell_lex InSingle (Some w) (escape_pattern_for_bash_c p ++ rest)
        = shell_lex InSingle (Some (w ++ escape_bash_pattern p)) rest)
  /\ shell_commands ("bash -c 'grep -q " ++ q ++ escape_pattern_for_bash_c p ++ q ++ " f' _")
     = Some [["bash"; "-c"; "grep -q " ++ q ++ escape_bash_pattern p ++ q ++ " f"; "_"]]
  /\ shell_commands ("grep -q " ++ q ++ escape_bash_pattern p ++ q ++ " f")
     = Some [["grep"; "-q"; p; "f"]].
Proof.
  refine (conj _ (conj _ (conj _ (conj _ (conj _ (conj _ _)))))).
  - reflexivity.
  - intros. exact (lex_double_escaped p w rest).
  - unfold shell_commands. simpl.
    rewrite lex_double_escaped. reflexivity.
  - reflexivity.
  - intros. apply lex_single_escaped.
  - unfold shell_commands. simpl.
    rewrite lex_single_escaped.
    simpl. rewrite !append_assoc. reflexivity.
  - unfold shell_commands. simpl.
    rewrite lex_double_escaped. reflexivity.
Qed.

(** ** Substrings *)

Lemma prefix_app (s t : string) : prefix s (s ++ t) = true.
Proof.
  induction s as [|a s IH]; simpl; [apply prefix_nil|].
  destruct (ascii_dec a a); [exact IH | congruence].
Qed.

Lemma contains_prefix (sub s : string) : prefix sub s = true -> contains sub s = true.
Proof. intro H. destruct s; unfold contains; fold contains; rewrite H; reflexivity. Qed.

Lemma contains_app_r (sub a s : string) :
  contains sub s = true -> contains sub (a ++ s) = true.
Proof.
  intro H. induction a as [|x a IH]; [exact H|].
  simpl. rewrite IH. apply orb_true_r.
Qed.

Lemma contains_middle (sub a b : string) : contains sub (a ++ sub ++ b) = true.
Proof. apply contains_app_r, contains_prefix, prefix_app. Qed.

(** ** The validator *)

Lemma get_check_falsy (rd : dict) :
  truthy (get rd "check" VNone) = false ->
  truthy (get rd "check" (VDict [])) = false.
Proof. unfold get. now destruct (lookup "check" rd). Qed.

Lemma validate_rules_cons (dom k : string) (v : value) (rest : dict) :
  validate_rules dom ((k, v) :: rest)
  = (ew <- validate_rule dom k v ;;
     ews <- validate_rules dom rest ;;
     Some ((fst ew ++ fst ews)%list, (snd ew ++ snd ews)%list)).
Proof. reflexivity. Qed.

(** The errors and warnings of a spec are those of its rules, in order. *)
Lemma validate_rules_app (dom : string) (xs ys : dict) e1 w1 e2 w2 :
  validate_rules dom xs = Some (e1, w1) ->
  validate_rules dom ys = Some (e2, w2) ->
  validate_rules dom (xs ++ ys)%list = Some ((e1 ++ e2)%list, (w1 ++ w2)%list).
Proof.
  revert e1 w1. induction xs as [|[k v] xs IH]; intros e1 w1 H1 H2.
  - injection H1 as <- <-. exact H2.
  - simpl in H1 |- *.
    destruct (validate_rule dom k v) as [[e w]|]; [|discriminate].
    simpl in H1 |- *.
    destruct (validate_rules dom xs) as [[e' w']|]; [|discriminate].
    simpl in H1. injection H1 as <- <-.
    rewrite (IH e' w' eq_refl H2). simpl.
    now rewrite !app_assoc.
Qed.

(** C8.  A rule with a truthy [mechanical], an empty or absent check, a
    title and a valid severity adds exactly one error, whatever warnings
    [ws] its provenance gives; the error names the rule id and mentions
    mechanical; in the result for the whole spec it stands between the
    errors of the rules before and after it. *)
Theorem mechanical_without_check (dom rid : string) (rd : dict)
  (ws : list string) :
  has_key "title" rd = true ->
  has_key "severity" rd = true ->
  truthy (get rd "severity" (VStr EmptyString))
    && negb (str_in (get rd "severity" (VStr EmptyString)) SEVERITIES) = false ->
  truthy (get rd "mechanical" VNone) = true ->
  truthy (get rd "check" VNone) = false ->
  rule_warnings dom rid rd = Some ws ->
  validate_rule dom rid (VDict rd) = Some ([mechanical_msg dom rid], ws)
  /\ contains rid (mechanical_msg dom rid) = true
  /\ contains "mechanical" (mechanical_msg dom rid) = true
  /\ forall (d pre post info_items : dict) e1 w1 e2 w2 ie dw,
       has_key "domain" d = true ->
       lookup "rules" d = Some (VDict (pre ++ (rid, VDict rd) :: post)%list) ->
       get d "info" (VDict []) = VDict info_items ->
       validate_rules dom pre = Some (e1, w1) ->
       validate_rules dom post = Some (e2, w2) ->
       validate_info dom info_items = Some ie ->
       domain_warnings dom d = Some dw ->
       validate_spec (VDict d) dom
       = Some ((e1 ++ [mechanical_msg dom rid] ++ e2 ++ ie)%list,
               (w1 ++ ws ++ w2 ++ dw)%list).
Proof.
  intros Ht Hs Hsev Hm Hc Hw.
  assert (R : validate_rule dom rid (VDict rd)
              = Some ([mechanical_msg dom rid], ws)).
  { unfold validate_rule, validate_check.
    rewrite (get_check_falsy rd Hc). simpl bind. rewrite Hw. simpl bind.
    unfold rule_field_errors. rewrite Ht, Hs, Hsev, Hm, Hc. reflexivity. }
  refine (conj R (conj _ (conj _ _))).
  - unfold mechanical_msg.
    rewrite <- append_assoc. apply contains_middle.
  - unfold mechanical_msg.
    pose proof (contains_middle "mechanical"
                  (dom ++ ".flight: Rule " ++ rid ++ " has ")
                  ":true but no check config") as H.
    rewrite !append_assoc in H. exact H.
  - intros d pre post info_items e1 w1 e2 w2 ie dw Hd Hr Hi H1 H2 Hie Hdw.
    unfold validate_spec.
    unfold has_key at 2. unfold get at 1. rewrite Hr, Hd, Hi.
    assert (V : validate_rules dom ((rid, VDict rd) :: post)
                = Some ((mechanical_msg dom rid :: e2), (ws ++ w2)%list)).
    { rewrite validate_rules_cons, R, H2. reflexivity. }
    rewrite (validate_rules_app dom pre _ _ _ _ _ H1 V).
    simpl bind. rewrite Hie, Hdw. simpl.
    now rewrite <- !app_assoc.
Qed.

(** C3.  The validator run on a spec whose only rule has an ast check
    with a query: [valid_types] (line 251) has no ast entry, so the rule is
    reported as having an unknown check type. *)
Theorem ast_check_rejected :
  validate_spec ast_spec "ast-only"
  = Some ([unknown_type_msg "ast-only" "N1" "ast"],
          [no_sources_msg "ast-only" "N1"]).
Proof. reflexivity. Qed.

(** Every check of type ast is reported so, whatever else it holds. *)
Lemma ast_check_always_rejected (dom rid : string) (c : dict) :
  lookup "type" c = Some (VStr "ast") ->
  validate_check dom rid (VDict c) = Some [unknown_type_msg dom rid "ast"].
Proof.
  intro H. unfold validate_check.
  destruct c as [|kv c]; [discriminate H|].
  cbn [truthy vget bind]. unfold get. rewrite H. reflexivity.
Qed.

Lemma validate_conditions_ok (dom rid : string) (conds : list value) (i : nat) :
  forallb cond_ok conds = true ->
  validate_conditions dom rid i conds = Some [].
Proof.
  revert i. induction conds as [|cond conds IH]; intros i H; [reflexivity|].
  simpl in H. apply andb_true_iff in H. destruct H as [H1 H2].
  cbn [validate_conditions]. rewrite (IH (S i) H2).
  unfold cond_ok in H1. destruct cond as [| | | | |cd]; try discriminate H1.
  cbn [vget bind].
  destruct (get cd "pattern" (VStr EmptyString)) as [|b|n|p|l|d];
    cbn [truthy negb] in H1 |- *.
  - reflexivity.
  - rewrite negb_true_iff in H1. now rewrite H1.
  - rewrite negb_true_iff in H1. now rewrite H1.
  - destruct (String.eqb p EmptyString); [reflexivity|].
    simpl in H1 |- *. now rewrite H1.
  - rewrite negb_true_iff in H1. now rewrite H1.
  - rewrite negb_true_iff in H1. now rewrite H1.
Qed.

Lemma get_of_lookup (d : dict) (k : string) (v default : value) :
  lookup k d = Some v -> get d k default = v.
Proof. unfold get. now intros ->. Qed.

Lemma lookup_of_get_str (d : dict) (k s : string) :
  get d k VNone = VStr s -> lookup k d = Some (VStr s).
Proof. unfold get. destruct (lookup k d); [now intros -> | discriminate]. Qed.

(** C2, as the code has it.  The validator has no type-specific
    structural check: a grep or presence check without a pattern key adds
    no error, and neither does a multi-condition check with fewer than two
    conditions whose patterns compile; the check compiler turns the latter
    into a comment stub. *)
Theorem structural_violations_pass (dom rid : string) (c : dict)
  (conds : list value) :
  (str_in (get c "type" VNone) ["grep"; "presence"] = true ->
   lookup "pattern" c = None ->
   validate_check dom rid (VDict c) = Some [])
  /\ (is_str (get c "type" VNone) "multi-condition" = true ->
      get c "conditions" (VList []) = VList conds ->
      List.length conds < 2 ->
      forallb cond_ok conds = true ->
      validate_check dom rid (VDict c) = Some []
      /\ forall r, check r = VDict c ->
           generate_check_command r = Some "# multi-condition with < 2 conditions").
Proof.
  split.
  - intros Ht Hp.
    destruct (get c "type" VNone) as [| | |s| |] eqn:T; try discriminate Ht.
    apply lookup_of_get_str in T.
    unfold validate_check.
    destruct c as [|kv c]; [discriminate T|].
    cbn [truthy vget bind].
    rewrite (get_of_lookup _ _ _ VNone T).
    unfold get at 1. rewrite Hp.
    simpl in Ht. rewrite orb_false_r in Ht.
    apply orb_true_iff in Ht. destruct Ht as [E|E];
      apply String.eqb_eq in E; subst s; reflexivity.
  - intros Ht Hc Hlen Hok.
    destruct (get c "type" VNone) as [| | |s| |] eqn:T; try discriminate Ht.
    simpl in Ht. apply String.eqb_eq in Ht. subst s.
    apply lookup_of_get_str in T.
    split.
    + unfold validate_check.
      destruct c as [|kv c]; [discriminate T|].
      cbn [truthy vget bind].
      rewrite (get_of_lookup _ _ _ VNone T), Hc.
      cbn. now rewrite (validate_conditions_ok dom rid conds 0 Hok).
    + intros r Hr. unfold generate_check_command. rewrite Hr.
      cbn [vget bind].
      rewrite (get_of_lookup _ _ _ (VStr EmptyString) T), Hc.
      cbn. destruct conds as [|c1 [|c2 conds]]; try reflexivity.
      simpl in Hlen. lia.
Qed.

(** ** Plain text under the shell's eyes *)

Ltac split_mem H :=
  unfold mem_ascii in H; simpl existsb in H;
  repeat (apply orb_false_elim in H; let H' := fresh "N" in destruct H as [H' H]).

(** A comment runs over any text without newline. *)
Lemma lex_comment_skip (s rest : string) :
  forallb (fun c => negb (Ascii.eqb c newline)) (list_ascii_of_string s) = true ->
  shell_lex InComment None (s ++ rest) = shell_lex InComment None rest.
Proof.
  induction s as [|a s IH]; intro H; [reflexivity|].
  simpl in H. apply andb_true_iff in H. destruct H as [H1 H2].
  apply negb_true_iff in H1.
  simpl. rewrite H1. exact (IH H2).
Qed.




(** Between double quotes a title with its [$] escaped adds the title
    itself to the word. *)
Lemma lex_double_title (t w rest : string) :
  title_plain t = true ->
  shell_lex InDouble (Some w) (replace "$" "\$" t ++ rest)
  = shell_lex InDouble (Some (w ++ t)) rest.
Proof.
  unfold title_plain. change "$" with (str1 dollar).
  revert w. induction t as [|a t IH]; intros w H.
  - simpl. now rewrite append_nil_r.
  - simpl in H. apply andb_true_iff in H. destruct H as [H1 H2].
    apply negb_true_iff in H1. split_mem H1.
    rewrite replace_char_cons.
    destruct (Ascii.eqb a dollar) eqn:D.
    + apply Ascii.eqb_eq in D. subst a.
      simpl. rewrite (IH _ H2). now rewrite append_snoc.
    + simpl. rewrite N, N0, N1, D. simpl.
      rewrite (IH _ H2). now rewrite append_snoc.
Qed.



Lemma get_mechanical_default (rd : dict) :
  truthy (get rd "mechanical" VNone) = true ->
  truthy (get rd "mechanical" (VBool false)) = true.
Proof. unfold get. destruct (lookup "mechanical" rd); [auto | discriminate]. Qed.

Lemma parse_rule_fields (rid : string) (rd : dict) (r : Rule) :
  parse_rule rid rd = Some r ->
  id r = rid
  /\ title r = get rd "title" (VStr EmptyString)
  /\ severity r = get rd "severity" (VStr "GUIDANCE")
  /\ mechanical r = get rd "mechanical" (VBool false)
  /\ check r = get rd "check" (VDict [])
  /\ api_files_only r = get rd "api_files_only" (VBool false).
Proof.
  unfold parse_rule. intro H.
  destruct (match lookup "provenance" rd with
            | Some p => option_map Some (parse_rule_provenance p)
            | None => Some None
            end); [|discriminate H].
  simpl in H. injection H as <-. repeat split.
Qed.


(** ** Sorting by key *)

Lemma key_leb_total (a b : key) : key_leb a b = true \/ key_leb b a = true.
Proof.
  unfold key_leb. destruct a as [a1 a2], b as [b1 b2]. simpl.
  destruct (Nat.ltb_spec a1 b1); [now left|].
  destruct (Nat.ltb_spec b1 a1); [now right|].
  assert (a1 = b1) by lia. subst.
  rewrite Nat.eqb_refl. simpl.
  destruct (Z.leb_spec a2 b2); [now left|].
  right. apply Z.leb_le. lia.
Qed.

Lemma key_leb_trans (a b c : key) :
  key_leb a b = true -> key_leb b c = true -> key_leb a c = true.
Proof.
  unfold key_leb. destruct a as [a1 a2], b as [b1 b2], c as [c1 c2]. simpl.
  rewrite !orb_true_iff, !andb_true_iff, !Nat.ltb_lt, !Nat.eqb_eq, !Z.leb_le.
  lia.
Qed.

Lemma key_leb_antisym (a b : key) :
  key_leb a b = true -> key_leb b a = true -> a = b.
Proof.
  unfold key_leb. destruct a as [a1 a2], b as [b1 b2]. simpl.
  rewrite !orb_true_iff, !andb_true_iff, !Nat.ltb_lt, !Nat.eqb_eq, !Z.leb_le.
  intros H1 H2. f_equal; lia.
Qed.

Lemma insert_by_perm {A : Type} (k : key) (x : A) (l : list (key * A)) :
  Permutation (insert_by k x l) ((k, x) :: l).
Proof.
  induction l as [|[k' y] l IH]; simpl; [reflexivity|].
  destruct (key_leb k k'); [reflexivity|].
  rewrite IH. apply perm_swap.
Qed.

Lemma sort_by_perm {A : Type} (l : list (key * A)) : Permutation (sort_by l) l.
Proof.
  induction l as [|[k x] l IH]; simpl; [reflexivity|].
  rewrite insert_by_perm. now constructor.
Qed.

Lemma insert_by_sorted {A : Type} (k : key) (x : A) (l : list (key * A)) :
  StronglySorted fst_le l -> StronglySorted fst_le (insert_by k x l).
Proof.
  induction l as [|[k' y] l IH]; intro H; simpl.
  - repeat constructor.
  - inversion H as [|? ? Hs Hf]; subst.
    destruct (key_leb k k') eqn:E.
    + constructor; [exact H|]. constructor; [exact E|].
      revert Hf. apply Forall_impl. intros [k2 z] H2.
      unfold fst_le, key_le in *. simpl in *. eapply key_leb_trans; eauto.
    + constructor; [now apply IH|].
      assert (E' : key_leb k' k = true)
        by (destruct (key_leb_total k k'); congruence).
      eapply Permutation_Forall; [symmetry; apply insert_by_perm|].
      constructor; [exact E' | exact Hf].
Qed.

Lemma sort_by_sorted {A : Type} (l : list (key * A)) :
  StronglySorted fst_le (sort_by l).
Proof.
  induction l as [|[k x] l IH]; simpl; [constructor|].
  now apply insert_by_sorted.
Qed.

Lemma mapM_keys {A : Type} (f : A -> option key) (l : list A) ks :
  mapM (fun x => k <- f x ;; Some (k, x)) l = Some ks ->
  map snd ks = l /\ Forall (fun p => f (snd p) = Some (fst p)) ks.
Proof.
  revert ks. induction l as [|x l IH]; intros ks H; simpl in H.
  - injection H as <-. split; constructor.
  - destruct (f x) as [k|] eqn:E; [|discriminate H]. simpl in H.
    destruct (mapM _ l) as [ks'|]; [|discriminate H]. simpl in H.
    injection H as <-. destruct (IH ks' eq_refl) as [M F].
    split; simpl; [now rewrite M | constructor; [exact E | exact F]].
Qed.



Lemma sorted_by_key {A : Type} (f : A -> option key) (ks : list (key * A)) :
  StronglySorted fst_le ks ->
  Forall (fun p => f (snd p) = Some (fst p)) ks ->
  StronglySorted (by_key f) (map snd ks).
Proof.
  induction 1 as [|p ks Hs IH Hf]; intro F; simpl; [constructor|].
  inversion F as [|? ? Fp Fks]; subst.
  constructor; [now apply IH|].
  apply Forall_map. rewrite Forall_forall in *.
  intros r Hr. unfold by_key. rewrite Fp, (Fks r Hr). exact (Hf r Hr).
Qed.

(** What [sorted] returns is a permutation of its argument, ordered by
    the key. *)
Lemma py_sorted_spec {A : Type} (f : A -> option key) (l l' : list A) :
  py_sorted f l = Some l' ->
  Permutation l' l /\ StronglySorted (by_key f) l'.
Proof.
  unfold py_sorted. intro H.
  destruct (mapM _ l) as [ks|] eqn:M; [|discriminate H].
  simpl in H. injection H as <-.
  destruct (mapM_keys f l ks M) as [E F]. split.
  - rewrite <- E. apply Permutation_map, sort_by_perm.
  - apply sorted_by_key; [apply sort_by_sorted|].
    eapply Permutation_Forall; [symmetry; apply sort_by_perm | exact F].
Qed.




Lemma mapM_some {A B : Type} (f : A -> option B) (l : list A) :
  (forall x, In x l -> f x <> None) -> exists ys, mapM f l = Some ys.
Proof.
  induction l as [|x l IH]; intro H; simpl; [now eexists|].
  destruct (f x) as [y|] eqn:E; [|now elim (H x (or_introl eq_refl))].
  destruct IH as [ys ->]; [intros z Hz; apply H; now right|].
  simpl. now eexists.
Qed.

(** ** Rule ids and [rules_by_severity] *)





(** ** Order of the rules in the generated script *)







(** ** Order of the exported records *)












(** What [convert_rules] collects: the entries of the rules that convert
    to one, and nothing else. *)
Lemma convert_rules_in (rs : list Rule) (js : list json_rule) :
  convert_rules rs = Some js ->
  (forall j, In j js ->
     exists r, In r rs /\ convert_check_to_rule r = Some (Some j))
  /\ (forall r, In r rs ->
        exists o, convert_check_to_rule r = Some o
                  /\ forall j, o = Some j -> In j js).
Proof.
  revert js. induction rs as [|r rs IH]; intros js H; simpl in H.
  - injection H as <-. split; intros ? [].
  - destruct (convert_check_to_rule r) as [o|] eqn:C; [|discriminate H].
    simpl in H. destruct (convert_rules rs) as [js'|]; [|discriminate H].
    simpl in H. injection H as <-.
    destruct (IH js' eq_refl) as [I1 I2]. split.
    + intros j Hj.
      assert (D : o = Some j \/ In j js').
      { destruct o as [e|]; [destruct Hj as [<-|Hj]; auto | auto]. }
      destruct D as [->|D].
      * exists r. split; [now left | exact C].
      * destruct (I1 j D) as [r' [Hr' Cr']]. exists r'. split; [now right | exact Cr'].
    + intros r' [<-|Hr'].
      * exists o. split; [exact C|]. intros j ->. now left.
      * destruct (I2 r' Hr') as [o' [Co' Ho']]. exists o'. split; [exact Co'|].
        intros j Hj. destruct o; [right|]; now apply Ho'.
Qed.

Lemma convert_check_jid (r : Rule) (j : json_rule) :
  convert_check_to_rule r = Some (Some j) ->
  jid j = id r /\ jtype j = "grep" /\ jquery j = VNone
  /\ jtitle j = title r /\ jseverity j = severity r
  /\ truthy (mechanical r) = true
  /\ exists c, check r = VDict c
       /\ str_in (get c "type" (VStr "grep")) ["grep"; "presence"] = true
       /\ jpattern j = get c "pattern" (VStr EmptyString).
Proof.
  unfold convert_check_to_rule. intro H.
  destruct (truthy (mechanical r)) eqn:M; [|discriminate H].
  cbn [negb] in H.
  destruct (check r) as [| | | | |c] eqn:C; try discriminate H.
  cbn [vget bind] in H.
  destruct (str_in (get c "type" (VStr "grep")) ["grep"; "presence"]) eqn:T;
    [|discriminate H].
  cbn [negb] in H.
  destruct (if truthy (description r) then _ else _) as [m|];
    [|discriminate H].
  cbn [bind] in H. injection H as <-. cbn.
  refine (conj eq_refl (conj eq_refl (conj eq_refl (conj eq_refl
           (conj eq_refl (conj eq_refl _)))))).
  exists c. exact (conj eq_refl (conj T eq_refl)).
Qed.


(** ** What is exported *)

Lemma NoDup_map_inj {A B : Type} (f : A -> B) (l : list A) (x y : A) :
  NoDup (map f l) -> In x l -> In y l -> f x = f y -> x = y.
Proof.
  induction l as [|a l IH]; intros N Hx Hy E; [elim Hx|].
  simpl in N. inversion N as [|? ? Na Nl]; subst.
  destruct Hx as [->|Hx], Hy as [->|Hy]; auto.
  - elim Na. rewrite E. now apply in_map.
  - elim Na. rewrite <- E. now apply in_map.
Qed.

Lemma exported_rules_in (spec : DomainSpec) (out : list json_rule) :
  exported_rules spec = Some out ->
  exists js, convert_rules (map snd (rules spec)) = Some js /\ Permutation out js.
Proof.
  unfold exported_rules. intro H.
  destruct (convert_rules _) as [js|]; [|discriminate H].
  cbn [bind] in H. exists js. split; [reflexivity|].
  now destruct (py_sorted_spec _ _ _ H).
Qed.

(** C4, as the code has it.  Every exported record has type grep (so
    grep or ast) and stems from a mechanical rule of the spec, whose id,
    title and severity it carries; every mechanical rule whose check type
    is grep or presence, or is left out, is exported, with its pattern and
    a null query; a rule whose check type is script, multi-condition or
    file_exists is not exported. *)
Theorem export_grep_only (spec : DomainSpec) (out : list json_rule) :
  exported_rules spec = Some out ->
  (forall j, In j out ->
     (jtype j = "grep" \/ jtype j = "ast")
     /\ exists r, In r (map snd (rules spec))
                  /\ truthy (mechanical r) = true
                  /\ jid j = id r /\ jtitle j = title r
                  /\ jseverity j = severity r)
  /\ (forall r c, In r (map snd (rules spec)) ->
        truthy (mechanical r) = true ->
        check r = VDict c ->
        str_in (get c "type" (VStr "grep")) ["grep"; "presence"] = true ->
        exists j, In j out /\ jid j = id r /\ jtype j = "grep"
                  /\ jpattern j = get c "pattern" (VStr EmptyString)
                  /\ jquery j = VNone)
  /\ (forall r c, In r (map snd (rules spec)) ->
        check r = VDict c ->
        str_in (get c "type" (VStr "grep"))
          ["script"; "multi-condition"; "file_exists"] = true ->
        convert_check_to_rule r = Some None
        /\ (NoDup (map id (map snd (rules spec))) ->
            forall j, In j out -> jid j <> id r)).
Proof.
  intro E. destruct (exported_rules_in spec out E) as [js [C P]].
  destruct (convert_rules_in _ _ C) as [I1 I2].
  assert (S1 : forall j, In j out ->
            exists r, In r (map snd (rules spec))
                      /\ convert_check_to_rule r = Some (Some j)).
  { intros j Hj. apply I1. eapply Permutation_in; eauto. }
  refine (conj _ (conj _ _)).
  - intros j Hj. destruct (S1 j Hj) as [r [Hr Cr]].
    destruct (convert_check_jid r j Cr) as (A1 & A2 & _ & A4 & A5 & A6 & _).
    split; [now left|]. exists r. auto.
  - intros r c Hr Hm Hc Ht.
    destruct (I2 r Hr) as [o [Co Ho]].
    assert (exists j, o = Some j) as [j ->].
    { unfold convert_check_to_rule in Co. rewrite Hm, Hc in Co.
      cbn [negb vget bind] in Co. rewrite Ht in Co. cbn [negb] in Co.
      destruct (if truthy (description r) then _ else _); [|discriminate Co].
      cbn [bind] in Co. injection Co as <-. now eexists. }
    destruct (convert_check_jid r j Co) as (A1 & A2 & A3 & _ & _ & _ & c' & Hc' & _ & Hp).
    rewrite Hc in Hc'. injection Hc' as <-.
    exists j. refine (conj _ (conj A1 (conj A2 (conj Hp A3)))).
    eapply Permutation_in; [symmetry; exact P | now apply Ho].
  - intros r c Hr Hc Ht.
    assert (N : convert_check_to_rule r = Some None).
    { unfold convert_check_to_rule. destruct (truthy (mechanical r)); [|reflexivity].
      rewrite Hc. cbn [negb vget bind].
      destruct (get c "type" (VStr "grep")) as [| | |s| |]; try discriminate Ht.
      simpl in Ht. rewrite orb_false_r in Ht.
      repeat (apply orb_true_iff in Ht; destruct Ht as [Ht|Ht]);
        apply String.eqb_eq in Ht; subst s; reflexivity. }
    split; [exact N|].
    intros ND j Hj Eid. destruct (S1 j Hj) as [r' [Hr' Cr']].
    destruct (convert_check_jid r' j Cr') as (A1 & _).
    assert (r' = r)
      by (apply (NoDup_map_inj id _ _ _ ND Hr' Hr); congruence).
    subst r'. rewrite N in Cr'. discriminate Cr'.
Qed.

(** ** A run of the generated script *)







(** * Further properties of the compiler *)

(** ** Single quotes *)

Lemma escape_for_single_quotes_chars (s : string) :
  escape_for_single_quotes s = flat_str sq_char s.
Proof.
  unfold escape_for_single_quotes. change "'" with (str1 squote).
  induction s as [|a s IH]; [reflexivity|].
  simpl flat_str. rewrite <- IH. rewrite replace_char_cons.
  unfold sq_char. now destruct (Ascii.eqb a squote).
Qed.

Lemma lex_single_quoted (s w rest : string) :
  shell_lex InSingle (Some w) (flat_str sq_char s ++ String squote rest)
  = shell_lex Unquoted (Some (w ++ s)) rest.
Proof.
  revert w. induction s as [|a s IH]; intro w.
  - simpl. now rewrite append_nil_r.
  - simpl flat_str. rewrite append_assoc. unfold sq_char at 1.
    destruct (Ascii.eqb a squote) eqn:S.
    + apply Ascii.eqb_eq in S. subst a.
      simpl. rewrite IH. now rewrite append_snoc.
    + change (str1 a ++ flat_str sq_char s ++ String squote rest)
        with (String a (flat_str sq_char s ++ String squote rest)).
      simpl shell_lex. rewrite S. simpl push. rewrite IH.
      now rewrite append_snoc.
Qed.

(** X1.  Text escaped by [escape_for_single_quotes] and put between
    single quotes is read back by the shell as the text itself; the
    fragment of a script check hands its stripped code to [bash -c] this
    way. *)
Theorem single_quote_roundtrip (s : string) :
  (forall w rest,
     shell_lex InSingle (Some w) (escape_for_single_quotes s ++ String squote rest)
     = shell_lex Unquoted (Some (w ++ s)) rest)
  /\ shell_commands ("bash -c '" ++ escape_for_single_quotes s ++ "' _ f")
     = Some [["bash"; "-c"; s; "_"; "f"]]
  /\ generate_check_command (script_rule s)
     = Some ("bash -c '" ++ escape_for_single_quotes (strip s) ++ "' _ "
               ++ q ++ FILES_ref ++ q).
Proof.
  assert (L : forall w rest,
            shell_lex InSingle (Some w)
              (escape_for_single_quotes s ++ String squote rest)
            = shell_lex Unquoted (Some (w ++ s)) rest).
  { intros. rewrite escape_for_single_quotes_chars. apply lex_single_quoted. }
  refine (conj L (conj _ eq_refl)).
  unfold shell_commands. simpl. rewrite L. reflexivity.
Qed.

(** ** The validator on check types and patterns *)

(** X2.  A check whose type is a non-empty string outside [valid_types]
    gives exactly one error, which says unknown and names the rule id and
    the type. *)
Theorem unknown_check_type_error (dom rid ty : string) (c : dict) :
  lookup "type" c = Some (VStr ty) ->
  ty <> EmptyString ->
  str_in (VStr ty) valid_types = false ->
  validate_check dom rid (VDict c) = Some [unknown_type_msg dom rid ty]
  /\ contains "unknown" (unknown_type_msg dom rid ty) = true
  /\ contains rid (unknown_type_msg dom rid ty) = true
  /\ contains ty (unknown_type_msg dom rid ty) = true.
Proof.
  intros Ht Hne Hv.
  refine (conj _ (conj _ (conj _ _))).
  - unfold validate_check.
    destruct c as [|kv c]; [discriminate Ht|].
    cbn [truthy vget bind]. rewrite (get_of_lookup _ _ _ VNone Ht).
    rewrite Hv. cbn [truthy].
    apply String.eqb_neq in Hne. rewrite Hne. cbn [negb andb].
    unfold valid_types in Hv. simpl in Hv.
    repeat (apply orb_false_elim in Hv; let E := fresh "E" in destruct Hv as [E Hv]).
    unfold str_in, is_str. simpl. rewrite E, E0, E2. reflexivity.
  - pose proof (contains_middle "unknown"
                  (dom ++ ".flight: Rule " ++ rid ++ " has ")
                  (" check type '" ++ ty ++ "'")) as H.
    rewrite !append_assoc in H. exact H.
  - unfold unknown_type_msg. rewrite <- append_assoc. apply contains_middle.
  - pose proof (contains_middle ty
                  (dom ++ ".flight: Rule " ++ rid ++ " has unknown check type '")
                  "'") as H.
    rewrite !append_assoc in H. exact H.
Qed.


(** ** Warnings *)

(** X4.  A rule that is not mechanical gives no warning, whatever its
    provenance holds; a mechanical rule without provenance gives exactly
    the warning that it has no sources. *)
Theorem warnings_of_rule (dom rid : string) (rd : dict) :
  (truthy (get rd "mechanical" VNone) = false ->
   rule_warnings dom rid rd = Some [])
  /\ (truthy (get rd "mechanical" VNone) = true ->
      lookup "provenance" rd = None ->
      rule_warnings dom rid rd = Some [no_sources_msg dom rid]).
Proof.
  split.
  - intro H. unfold rule_warnings. now rewrite H.
  - intros H P. unfold rule_warnings. rewrite H.
    unfold get at 1 2 3. rewrite P. reflexivity.
Qed.

(** ** Required top-level fields *)

(** X16.  Data that is not a mapping makes the validator raise.  For a
    mapping on which it returns, a missing domain or rules key is reported
    by its own error, and with the rules key missing the other errors come
    from the info section alone. *)
Theorem required_top_level_fields (dom : string) (d : dict)
  (errs ws : list string) :
  validate_spec (VDict d) dom = Some (errs, ws) ->
  (has_key "domain" d = false -> In (missing_domain_msg dom) errs)
  /\ (has_key "rules" d = false ->
      In (missing_rules_msg dom) errs
      /\ exists info_items ie,
           get d "info" (VDict []) = VDict info_items
           /\ validate_info dom info_items = Some ie
           /\ errs = ((if has_key "domain" d then []
                       else [missing_domain_msg dom])
                      ++ [missing_rules_msg dom] ++ ie)%list)
  /\ validate_spec VNone dom = None
  /\ (forall l, validate_spec (VList l) dom = None)
  /\ (forall s, validate_spec (VStr s) dom = None).
Proof.
  intro H. unfold validate_spec in H.
  destruct (get d "rules" (VDict [])) as [| | | | |rule_items] eqn:R;
    try discriminate H.
  destruct (get d "info" (VDict [])) as [| | | | |info_items] eqn:I;
    try discriminate H.
  destruct (validate_rules dom rule_items) as [[re rw]|] eqn:VR;
    [|discriminate H].
  cbn [bind] in H.
  destruct (validate_info dom info_items) as [ie|] eqn:VI; [|discriminate H].
  cbn [bind] in H.
  destruct (domain_warnings dom d) as [dw|]; [|discriminate H].
  cbn [bind fst snd] in H. injection H as <- <-.
  refine (conj _ (conj _ (conj eq_refl (conj (fun _ => eq_refl) (fun _ => eq_refl))))).
  - intro D. rewrite D. simpl. now left.
  - intro K. rewrite K.
    assert (rule_items = []) as ->.
    { unfold get in R. unfold has_key in K.
      destruct (lookup "rules" d); [discriminate K | now injection R]. }
    simpl in VR. injection VR as <- <-.
    split.
    + destruct (has_key "domain" d); simpl; auto.
    + exists info_items, ie. refine (conj eq_refl (conj VI _)).
      destruct (has_key "domain" d); reflexivity.
Qed.

(** ** Parsing the rules *)

Lemma parse_rule_items_spec (items : dict) (rs : list (string * Rule)) :
  parse_rule_items items = Some rs ->
  map fst rs = map fst (filter (fun kv => isinstance_dict (snd kv)) items)
  /\ Forall (fun kr =>
       id (snd kr) = fst kr
       /\ exists rd, In (fst kr, VDict rd) items
            /\ severity (snd kr) = get rd "severity" (VStr "GUIDANCE")
            /\ mechanical (snd kr) = get rd "mechanical" (VBool false)
            /\ check (snd kr) = get rd "check" (VDict [])) rs.
Proof.
  revert rs. induction items as [|[k v] items IH]; intros rs H.
  - injection H as <-. split; constructor.
  - assert (Skip : isinstance_dict v = false ->
              parse_rule_items ((k, v) :: items) = parse_rule_items items)
      by (intro E; destruct v; try reflexivity; discriminate E).
    destruct v as [| | | | |rd];
      try (rewrite Skip in H by reflexivity;
           destruct (IH rs H) as [I1 I2]; split; [exact I1|];
           revert I2; apply Forall_impl; intros kr (A & rd & B & C);
           split; [exact A|]; exists rd; split; [now right | exact C]).
    cbn [parse_rule_items] in H.
    destruct (parse_rule k rd) as [r|] eqn:P; [|discriminate H].
    cbn [bind] in H.
    destruct (parse_rule_items items) as [rs'|]; [|discriminate H].
    cbn [bind] in H. injection H as <-.
    destruct (IH rs' eq_refl) as [I1 I2].
    destruct (parse_rule_fields k rd r P) as (F1 & _ & F3 & F4 & F5 & _).
    split; [simpl; now rewrite I1|].
    constructor.
    + split; [exact F1|]. exists rd. simpl.
      refine (conj (or_introl eq_refl) (conj F3 (conj F4 F5))).
    + revert I2. apply Forall_impl. intros kr (A & rd' & B & C).
      split; [exact A|]. exists rd'. split; [now right | exact C].
Qed.

(** X6.  [parse_rules] keeps the rules in declaration order, leaves out
    the entries that are not mappings, gives each rule the key it is
    declared under as id, and fills a missing severity with GUIDANCE, a
    missing mechanical flag with false and a missing check with the empty
    mapping; rules that are not a mapping at all make it raise. *)
Theorem parse_rules_order (items : dict) (rs : list (string * Rule)) :
  parse_rules (VDict items) = Some rs ->
  map fst rs = map fst (filter (fun kv => isinstance_dict (snd kv)) items)
  /\ Forall (fun kr =>
       id (snd kr) = fst kr
       /\ exists rd, In (fst kr, VDict rd) items
            /\ severity (snd kr) = get rd "severity" (VStr "GUIDANCE")
            /\ mechanical (snd kr) = get rd "mechanical" (VBool false)
            /\ check (snd kr) = get rd "check" (VDict [])) rs
  /\ parse_rules VNone = None
  /\ forall l, parse_rules (VList l) = None.
Proof.
  intro H. destruct (parse_rule_items_spec items rs H) as [A B].
  exact (conj A (conj B (conj eq_refl (fun _ => eq_refl)))).
Qed.

(** ** When [rules_by_severity] raises *)





(** ** Stubs *)

(** X9.  A check whose type is a string outside the five compiled types
    compiles to a comment that names the type; when the type has no
    newline the shell reads the stub as no command at all, and so it
    reads the stub of a multi-condition check with fewer than two
    conditions. *)
Theorem unknown_type_stub (r : Rule) (c : dict) (ty : string) :
  check r = VDict c ->
  get c "type" (VStr EmptyString) = VStr ty ->
  str_in (VStr ty) valid_types = false ->
  forallb (fun a => negb (Ascii.eqb a newline)) (list_ascii_of_string ty) = true ->
  generate_check_command r = Some ("# Unknown check type: " ++ ty)
  /\ shell_commands ("# Unknown check type: " ++ ty) = Some []
  /\ shell_commands "# multi-condition with < 2 conditions" = Some [].
Proof.
  intros Hc Ht Hv Hn. refine (conj _ (conj _ eq_refl)).
  - unfold generate_check_command. rewrite Hc. cbn [vget bind]. rewrite Ht.
    unfold valid_types in Hv. simpl in Hv.
    repeat (apply orb_false_elim in Hv; let E := fresh "E" in destruct Hv as [E Hv]).
    unfold is_str. rewrite E, E0, E1, E2, E3. reflexivity.
  - unfold shell_commands. simpl.
    rewrite <- (append_nil_r ty). rewrite (lex_comment_skip ty _ Hn).
    reflexivity.
Qed.

(** ** The sort key of the exporter *)




(** ** The language of a domain *)

Lemma infer_from_patterns_range (pats : list value) (l : string) :
  infer_from_patterns pats = Some l -> In l languages.
Proof.
  induction pats as [|p pats IH]; intro H; simpl in H.
  - injection H as <-. unfold languages. simpl. auto 10.
  - destruct (any_in [".js"; ".mjs"; ".cjs"] p) as [[]|]; cbn [bind] in H;
      try discriminate H;
      [injection H as <-; unfold languages; simpl; auto 10|].
    destruct (any_in [".ts"; ".tsx"] p) as [[]|]; cbn [bind] in H;
      try discriminate H;
      [injection H as <-; unfold languages; simpl; auto 10|].
    destruct (py_in ".py" p) as [[]|]; cbn [bind] in H; try discriminate H;
      [injection H as <-; unfold languages; simpl; auto 10|].
    destruct (py_in ".go" p) as [[]|]; cbn [bind] in H; try discriminate H;
      [injection H as <-; unfold languages; simpl; auto 10|].
    destruct (py_in ".rs" p) as [[]|]; cbn [bind] in H; try discriminate H;
      [injection H as <-; unfold languages; simpl; auto 10|].
    now apply IH.
Qed.

Lemma infer_iter_range (fp : value) (l : string) :
  (pats <- py_iter fp ;; infer_from_patterns pats) = Some l -> In l languages.
Proof.
  destruct (py_iter fp) as [pats|]; cbn [bind]; [|discriminate].
  apply infer_from_patterns_range.
Qed.

(** X10.  The language of a domain named in [DOMAIN_TO_LANGUAGE] is the
    one of the table, whatever the file patterns are (they are not even
    looked at); for any other domain the answer, when there is one, is one
    of javascript, typescript, python, go, rust and unknown, and it is
    unknown when there is no file pattern. *)
Theorem infer_language_answers (dn fp : value) :
  (forall d l, dn = VStr d -> In (d, l) DOMAIN_TO_LANGUAGE ->
     infer_language_from_domain dn fp = Some l)
  /\ (forall l, infer_language_from_domain dn fp = Some l -> In l languages)
  /\ (forall d, dn = VStr d ->
        (forall l, ~ In (d, l) DOMAIN_TO_LANGUAGE) ->
        fp = VList [] ->
        infer_language_from_domain dn fp = Some "unknown").
Proof.
  refine (conj _ (conj _ _)).
  - intros d l -> Hin. unfold DOMAIN_TO_LANGUAGE in Hin. simpl in Hin.
    repeat (destruct Hin as [Hin|Hin];
            [injection Hin as <- <-; reflexivity|]).
    elim Hin.
  - intros l H. unfold infer_language_from_domain in H.
    assert (T : forall kv, In kv DOMAIN_TO_LANGUAGE -> In (snd kv) languages).
    { intros kv Hkv. unfold DOMAIN_TO_LANGUAGE in Hkv. simpl in Hkv.
      repeat (destruct Hkv as [<-|Hkv]; [unfold languages; simpl; auto 10|]).
      elim Hkv. }
    destruct dn as [|b|n|d|x|x]; try discriminate H;
      try exact (infer_iter_range fp l H).
    destruct (find _ DOMAIN_TO_LANGUAGE) as [kv|] eqn:E.
    + injection H as <-. apply T. eapply find_some. exact E.
    + exact (infer_iter_range fp l H).
  - intros d -> Hn ->. unfold infer_language_from_domain.
    destruct (find _ DOMAIN_TO_LANGUAGE) as [kv|] eqn:E; [|reflexivity].
    apply find_some in E. destruct E as [Hin Heq].
    apply String.eqb_eq in Heq. destruct kv as [k l]. simpl in Heq. subst k.
    now elim (Hn l).
Qed.

(** ** The self-check of the rule database *)

Lemma check_rule_entries_ok (js : list json_rule) (idx : nat) :
  check_rule_entries idx (map json_rule_value js) = Some None.
Proof.
  revert idx. induction js as [|j js IH]; intro idx; [reflexivity|].
  simpl map. cbn [check_rule_entries].
  assert (M : first_missing required_rule_fields (json_rule_value j) = Some None)
    by reflexivity.
  rewrite M. cbn [bind]. apply IH.
Qed.

(** X11.  The dictionary that [generate_rules_json] serialises always
    passes [validate_rules_json]: every required top-level field and every
    required field of every rule entry is there, with or without the
    optional keys. *)
Theorem self_check_passes (rf : rules_file) :
  validate_rules_json (rules_file_value rf) = Some None.
Proof.
  unfold validate_rules_json, rules_file_value.
  destruct (rf_exclude_patterns rf), (rf_provenance rf);
    cbn; apply check_rule_entries_ok.
Qed.

(** ** Titles *)

(** X12.  A title without backtick, double quote, backslash and newline,
    with its dollar signs escaped as [generate_rule_sh] does, is read back
    between double quotes as the title itself; the block of a rule puts
    the id and the escaped title there, as first argument of the
    wrapper. *)
Theorem title_roundtrip (t : string) :
  title_plain t = true ->
  (forall w rest,
     shell_lex InDouble (Some w) (replace "$" "\$" t ++ String dquote rest)
     = shell_lex Unquoted (Some (w ++ t)) rest)
  /\ generate_rule_sh (titled_rule t)
     = Some (nl ++ "# N1: " ++ t ++ nl
               ++ "check " ++ q ++ "N1: " ++ replace "$" "\$" t ++ q ++ " \" ++ nl
               ++ "    " ++ "grep -E " ++ q ++ "x" ++ q ++ " " ++ q ++ FILES_ref ++ q
               ++ nl).
Proof.
  intro H. split.
  - intros w rest. rewrite (lex_double_title t w _ H). reflexivity.
  - reflexivity.
Qed.

(** ** Shape of an exported record *)

Lemma nonempty_dict_some (d p : dict) : nonempty_dict d = Some p -> p = d.
Proof. destruct d; [discriminate | now intros [= <-]]. Qed.

(** X14.  In an exported record the provenance key is left out when the
    rule has no provenance or none of its three fields is truthy, so it is
    never an empty mapping, and it holds truthy values only; the message is
    the stripped description, or the title when the description is
    empty. *)
Theorem exported_entry_shape (r : Rule) (j : json_rule) :
  convert_check_to_rule r = Some (Some j) ->
  jprovenance j <> Some []
  /\ (provenance r = None -> jprovenance j = None)
  /\ (forall p k v, jprovenance j = Some p -> In (k, v) p ->
        truthy v = true
        /\ In k ["last_verified"; "confidence"; "re_verify_after"])
  /\ (truthy (description r) = false -> jmessage j = title r)
  /\ (forall d, description r = VStr d -> d <> EmptyString ->
        jmessage j = VStr (strip d)).
Proof.
  unfold convert_check_to_rule. intro H.
  destruct (truthy (mechanical r)); [|discriminate H].
  cbn [negb] in H.
  destruct (vget (check r) "type" (VStr "grep")) as [ct|]; [|discriminate H].
  cbn [bind] in H.
  destruct (str_in ct ["grep"; "presence"]); [|discriminate H].
  cbn [negb] in H.
  destruct (vget (check r) "pattern" (VStr EmptyString)) as [pat|];
    [|discriminate H].
  cbn [bind] in H.
  destruct (if truthy (description r) then _ else _) as [m|] eqn:M;
    [|discriminate H].
  cbn [bind] in H. injection H as <-. cbn [jprovenance jmessage].
  assert (NE : forall d : dict, nonempty_dict d <> Some [])
    by (intros [|kv d]; discriminate).
  refine (conj _ (conj _ (conj _ (conj _ _)))).
  - destruct (provenance r); [apply NE | discriminate].
  - now intros ->.
  - intros p k v Hp Hin. destruct (provenance r) as [pr|]; [|discriminate Hp].
    assert (p = prov_entries
                  [("last_verified", last_verified pr);
                   ("confidence", confidence pr);
                   ("re_verify_after", re_verify_after pr)]) as ->.
    { apply nonempty_dict_some. exact Hp. }
    unfold prov_entries in Hin. apply filter_In in Hin.
    destruct Hin as [Hin Ht]. split; [exact Ht|].
    simpl in Hin.
    destruct Hin as [E|[E|[E|[]]]]; injection E as <- _; simpl; auto.
  - intro D. rewrite D in M. now injection M.
  - intros d D Hne. rewrite D in M. cbn [truthy] in M.
    apply String.eqb_neq in Hne. rewrite Hne in M. cbn in M. now injection M.
Qed.

(** ** Every rule is rendered once *)








(** ** Validator warnings and the provenance queries *)

Lemma parse_rule_provenance_fields (p : dict) (pr : RuleProvenance) :
  parse_rule_provenance (VDict p) = Some pr ->
  re_verify_after pr = get p "re_verify_after" VNone
  /\ confidence pr = get p "confidence" (VStr "high")
  /\ exists srcs, py_iter (get p "sources" (VList [])) = Some srcs
                  /\ sources pr = flat_map parse_source srcs.
Proof.
  unfold parse_rule_provenance. cbn [vget bind]. intro H.
  destruct (py_iter (get p "sources" (VList []))) as [srcs|]; [|discriminate H].
  cbn [bind] in H. injection H as <-. cbn.
  refine (conj eq_refl (conj eq_refl _)). exists srcs. now split.
Qed.

Lemma parse_rule_prov (rid : string) (rd : dict) (r : Rule) :
  parse_rule rid rd = Some r ->
  mechanical r = get rd "mechanical" (VBool false)
  /\ (lookup "provenance" rd = None -> provenance r = None)
  /\ (forall p, lookup "provenance" rd = Some (VDict p) ->
        exists pr, provenance r = Some pr
                   /\ parse_rule_provenance (VDict p) = Some pr).
Proof.
  unfold parse_rule. intro H.
  destruct (lookup "provenance" rd) as [pv|].
  - destruct (parse_rule_provenance pv) as [pr|] eqn:P; [|discriminate H].
    cbn in H. injection H as <-. cbn.
    refine (conj eq_refl (conj _ _)); [discriminate|].
    intros p E. injection E as ->. now exists pr.
  - cbn in H. injection H as <-. cbn.
    refine (conj eq_refl (conj (fun _ => eq_refl) _)). discriminate.
Qed.

Lemma falsy_iter_empty (sv : value) (srcs : list value) :
  truthy sv = false -> py_iter sv = Some srcs -> srcs = [].
Proof.
  destruct sv as [|b|n|s|l|d]; simpl; intros T I; try discriminate I.
  - apply negb_false_iff, String.eqb_eq in T. subst s. now injection I as <-.
  - destruct l; [now injection I as <- | discriminate T].
  - destruct d; [now injection I as <- | discriminate T].
Qed.

(** X8.  When the validator finds no sources for a mechanical rule, the
    rule it is parsed into is one of [unverified_rules], and the
    unverifiable warning is the first warning of the rule. *)
Theorem no_sources_unverified (dom rid : string) (rd : dict) (r : Rule)
  (sv : value) :
  parse_rule rid rd = Some r ->
  truthy (get rd "mechanical" VNone) = true ->
  vget (get rd "provenance" (VDict [])) "sources" VNone = Some sv ->
  truthy sv = false ->
  is_unverified r = true
  /\ forall ws, rule_warnings dom rid rd = Some ws ->
       exists rest, ws = no_sources_msg dom rid :: rest.
Proof.
  intros P M S T. destruct (parse_rule_prov rid rd r P) as (Fm & Fn & Fp).
  split.
  - unfold is_unverified. rewrite Fm, (get_mechanical_default rd M).
    cbn [andb]. unfold get in S at 1.
    destruct (lookup "provenance" rd) as [pv|] eqn:L.
    + destruct pv as [| | | | |p]; try discriminate S.
      destruct (Fp p eq_refl) as [pr [Hpr Ppr]]. rewrite Hpr.
      destruct (parse_rule_provenance_fields p pr Ppr) as (_ & _ & srcs & I & Hs).
      rewrite Hs. cbn [vget] in S. injection S as S.
      assert (E : srcs = []).
      { unfold get in S, I. destruct (lookup "sources" p) as [x|].
        - subst x. exact (falsy_iter_empty sv srcs T I).
        - simpl in I. now injection I as <-. }
      now rewrite E.
    + now rewrite (Fn eq_refl).
  - intros ws W. unfold rule_warnings in W. rewrite M, S in W.
    cbn [bind] in W. rewrite T in W. cbn [negb] in W.
    destruct (vget (get rd "provenance" (VDict [])) "re_verify_after" VNone)
      as [rv|]; [|discriminate W].
    cbn [bind] in W.
    destruct (if truthy rv then _ else _) as [w2|]; [|discriminate W].
    cbn [bind] in W.
    destruct (vget (get rd "provenance" (VDict [])) "confidence" (VStr "high"))
      as [cf|]; [|discriminate W].
    cbn [bind] in W. injection W as <-. eexists. reflexivity.
Qed.

(** X5.  For a mechanical rule with a provenance mapping, the test of
    [stale_rules] on the parsed rule is the validator's: both compare the
    re-verification date with today as strings; when the comparison raises
    so does the validator, and when the rule is stale the validator's
    warnings hold the stale warning with that date. *)
Theorem stale_agrees (dom rid : string) (rd p : dict) (r : Rule) :
  parse_rule rid rd = Some r ->
  truthy (get rd "mechanical" VNone) = true ->
  lookup "provenance" rd = Some (VDict p) ->
  is_stale r
  = (if truthy (get p "re_verify_after" VNone)
     then py_lt_str (get p "re_verify_after" VNone) today
     else Some false)
  /\ (is_stale r = None -> rule_warnings dom rid rd = None)
  /\ (is_stale r = Some true ->
      forall ws, rule_warnings dom rid rd = Some ws ->
        In (stale_msg dom rid (fmt (get p "re_verify_after" VNone))) ws).
Proof.
  intros P M L. destruct (parse_rule_prov rid rd r P) as (_ & _ & Fp).
  destruct (Fp p L) as [pr [Hpr Ppr]].
  destruct (parse_rule_provenance_fields p pr Ppr) as (Rv & _ & _).
  assert (S : is_stale r
              = (if truthy (get p "re_verify_after" VNone)
                 then py_lt_str (get p "re_verify_after" VNone) today
                 else Some false))
    by (unfold is_stale; now rewrite Hpr, Rv).
  assert (G : get rd "provenance" (VDict []) = VDict p)
    by (unfold get; now rewrite L).
  refine (conj S (conj _ _)).
  - rewrite S. intro N. unfold rule_warnings. rewrite M, G. cbn [vget bind].
    destruct (truthy (get p "re_verify_after" VNone)); [|discriminate N].
    now rewrite N.
  - rewrite S. intros St ws W. unfold rule_warnings in W.
    rewrite M, G in W. cbn [vget bind] in W.
    destruct (truthy (get p "re_verify_after" VNone)); [|discriminate St].
    rewrite St in W. cbn [bind] in W. injection W as <-.
    apply in_or_app. right. simpl. now left.
Qed.

(** ** Errors do not depend on provenance *)

(** X18.  The errors of a rule depend on its title, severity, mechanical
    flag and check only: two rule mappings that differ in nothing but the
    provenance key get the same errors whenever the validator returns on
    both, whatever warnings each gets. *)
Theorem errors_ignore_provenance (dom rid : string) (rd rd' : dict)
  (e e' w w' : list string) :
  (forall k, k <> "provenance" -> lookup k rd = lookup k rd') ->
  validate_rule dom rid (VDict rd) = Some (e, w) ->
  validate_rule dom rid (VDict rd') = Some (e', w') ->
  e = e'.
Proof.
  intros L V V'.
  assert (G : forall k dflt, k <> "provenance" -> get rd k dflt = get rd' k dflt)
    by (intros k dflt N; unfold get; now rewrite (L k N)).
  assert (K : forall k, k <> "provenance" -> has_key k rd = has_key k rd')
    by (intros k N; unfold has_key; now rewrite (L k N)).
  unfold validate_rule in V, V'.
  rewrite <- (G "check" (VDict [])) in V' by discriminate.
  destruct (validate_check dom rid (get rd "check" (VDict []))) as [ce|];
    [|discriminate V].
  cbn [bind] in V, V'.
  destruct (rule_warnings dom rid rd); [|discriminate V].
  destruct (rule_warnings dom rid rd'); [|discriminate V'].
  cbn [bind] in V, V'. injection V as <- _. injection V' as <- _.
  f_equal. unfold rule_field_errors.
  rewrite <- (K "title"), <- (K "severity") by discriminate.
  rewrite <- (G "severity" (VStr EmptyString)), <- (G "mechanical" VNone),
    <- (G "check" VNone) by discriminate.
  reflexivity.
Qed.

(** ** Rules limited to API files *)

Lemma no_char_app (c : ascii) (s t : string) :
  no_char c (s ++ t) = no_char c s && no_char c t.
Proof.
  induction s as [|a s IH]; simpl; [reflexivity|].
  now rewrite IH, andb_assoc.
Qed.

Lemma replace_from_skip (old new s b : string) :
  replace_from old new (String.length s) (s ++ b) = replace_from old new 0 b.
Proof. induction s as [|a s IH]; simpl; [reflexivity | exact IH]. Qed.

(** An occurrence at the front is replaced, and the scan goes on after
    it. *)
Lemma replace_prefix (a : ascii) (t new b : string) :
  replace (String a t) new (String a t ++ b)
  = new ++ replace (String a t) new b.
Proof.
  unfold replace.
  change (String a t ++ b) with (String a (t ++ b)).
  cbn [replace_from].
  change (String a (t ++ b)) with (String a t ++ b).
  rewrite prefix_app.
  change (String.length (String a t) - 1) with (String.length t - 0).
  rewrite Nat.sub_0_r. now rewrite replace_from_skip.
Qed.

(** Text without the first character of [old] is left as it is. *)
Lemma replace_no_first (a : ascii) (t new s b : string) :
  no_char a s = true ->
  replace (String a t) new (s ++ b) = s ++ replace (String a t) new b.
Proof.
  unfold replace. induction s as [|x s IH]; intro H; [reflexivity|].
  simpl in H. apply andb_true_iff in H. destruct H as [H1 H2].
  apply negb_true_iff in H1.
  change (String x s ++ b) with (String x (s ++ b)).
  cbn [replace_from]. cbn [prefix].
  destruct (ascii_dec a x) as [->|_].
  - rewrite Ascii.eqb_refl in H1. discriminate H1.
  - now rewrite (IH H2).
Qed.

Lemma escape_no_dollar (p : string) :
  no_char dollar p = true -> no_char dollar (escape_bash_pattern p) = true.
Proof.
  rewrite escape_bash_pattern_chars.
  induction p as [|a p IH]; intro H; [reflexivity|].
  simpl in H. apply andb_true_iff in H. destruct H as [H1 H2].
  simpl flat_str. rewrite no_char_app, (IH H2), andb_true_r.
  unfold esc_char. destruct (mem_ascii a dq_escapable); simpl;
    now rewrite H1.
Qed.

Lemma api_command (p : string) :
  no_char dollar p = true ->
  contains FILES_ref
    ("grep -E " ++ q ++ escape_bash_pattern p ++ q ++ " " ++ q ++ FILES_ref ++ q)
  = true
  /\ replace FILES_ref API_FILES_ref
       ("grep -E " ++ q ++ escape_bash_pattern p ++ q ++ " " ++ q ++ FILES_ref ++ q)
     = "grep -E " ++ q ++ escape_bash_pattern p ++ q ++ " " ++ q
         ++ API_FILES_ref ++ q.
Proof.
  intro H. pose proof (escape_no_dollar p H) as E.
  set (e := escape_bash_pattern p) in *.
  assert (A : "grep -E " ++ q ++ e ++ q ++ " " ++ q ++ FILES_ref ++ q
              = ("grep -E " ++ q ++ e ++ q ++ " " ++ q) ++ FILES_ref ++ q)
    by (now rewrite !append_assoc).
  assert (N : no_char dollar ("grep -E " ++ q ++ e ++ q ++ " " ++ q) = true).
  { change ("grep -E " ++ q ++ e ++ q ++ " " ++ q)
      with (("grep -E " ++ q) ++ e ++ (q ++ " " ++ q)).
    now rewrite !no_char_app, E. }
  split.
  - rewrite A. apply contains_middle.
  - rewrite A. change FILES_ref with (String dollar "{FILES[@]}").
    rewrite (replace_no_first dollar "{FILES[@]}" _ _ _ N).
    rewrite replace_prefix.
    change (replace (String dollar "{FILES[@]}") API_FILES_ref q) with q.
    now rewrite !append_assoc.
Qed.

(** X17.  For a grep rule limited to API files whose pattern has no
    dollar sign, the generated block greps the API files: the quoted
    FILES expansion of the command is replaced by the API one, the escaped
    pattern is left as it is, and the call is guarded by the test for API
    files, with a counted pass in the other branch. *)
Theorem api_rule_block (p : string) :
  no_char dollar p = true ->
  generate_rule_sh (api_grep_rule p)
  = Some (nl ++ "# N1: rule" ++ nl
            ++ "if [[ ${#API_ENDPOINT_FILES[@]} -gt 0 ]]; then" ++ nl
            ++ "    check " ++ q ++ "N1: rule" ++ q ++ " \" ++ nl
            ++ "        "
            ++ ("grep -E " ++ q ++ escape_bash_pattern p ++ q ++ " " ++ q
                  ++ API_FILES_ref ++ q) ++ nl
            ++ "else" ++ nl
            ++ "    green " ++ q ++ "✅ N1: rule (skipped - no API endpoint files)"
            ++ q ++ nl
            ++ "    ((PASS++)) || true" ++ nl
            ++ "fi" ++ nl).
Proof.
  intro H. destruct (api_command p H) as [C R].
  unfold generate_rule_sh, api_grep_rule.
  cbn [mechanical title severity api_files_only id truthy negb as_str bind].
  assert (G : generate_check_command (api_grep_rule p)
              = Some ("grep -E " ++ q ++ escape_bash_pattern p ++ q ++ " " ++ q
                        ++ FILES_ref ++ q)) by reflexivity.
  unfold api_grep_rule in G. rewrite G. cbn [bind andb].
  rewrite C, R. reflexivity.
Qed.

(** ** The scan of the YAML validator's output *)

Lemma critical_failures_names (b : bool) (lines : list string) (x : string) :
  In x (critical_failures b lines) ->
  x = "N1: Tab Characters" \/ x = "N2: Duplicate Keys".
Proof.
  revert b. induction lines as [|line rest IH]; intros b H; [elim H|].
  cbn [critical_failures] in H.
  destruct (contains "## NEVER Rules" line); [exact (IH _ H)|].
  destruct (prefix "## " line); [exact (IH _ H)|].
  destruct (b && contains "❌ N1:" line).
  { destruct H as [<-|H]; [now left | exact (IH _ H)]. }
  destruct (b && contains "❌ N2:" line).
  { destruct H as [<-|H]; [now right | exact (IH _ H)]. }
  exact (IH _ H).
Qed.

Lemma critical_failures_outside (lines : list string) :
  forallb (fun l => negb (contains "## NEVER Rules" l)) lines = true ->
  critical_failures false lines = [].
Proof.
  induction lines as [|line rest IH]; intro H; [reflexivity|].
  simpl in H. apply andb_true_iff in H. destruct H as [H1 H2].
  apply negb_true_iff in H1.
  cbn [critical_failures]. rewrite H1.
  destruct (prefix "## " line); [exact (IH H2)|].
  cbn [andb]. exact (IH H2).
Qed.

(** X19.  The scan of [validate_yaml_syntax] reports nothing but failures
    of N1 and N2; an output without the NEVER heading has no critical
    failure, so the file is accepted whatever the return code; a heading
    of another section ends the NEVER section, and failures of N1 after it
    are not counted. *)
Theorem yaml_scan (lines : list string) :
  (forall b x, In x (critical_failures b lines) ->
     x = "N1: Tab Characters" \/ x = "N2: Duplicate Keys")
  /\ (forallb (fun l => negb (contains "## NEVER Rules" l)) lines = true ->
      forall rc, yaml_syntax_ok rc lines = true)
  /\ (forallb (fun l => negb (contains "## NEVER Rules" l)) lines = true ->
      forall b pre,
        critical_failures b (pre ++ "## MUST Rules" :: lines)%list
        = critical_failures b (pre ++ ["## MUST Rules"])%list).
Proof.
  refine (conj _ (conj _ _)).
  - intros b x. apply critical_failures_names.
  - intros H rc. unfold yaml_syntax_ok.
    rewrite (critical_failures_outside lines H). now destruct (negb _).
  - intros H b pre. revert b.
    induction pre as [|l pre IH]; intro b.
    + cbn. exact (critical_failures_outside lines H).
    + cbn [app critical_failures].
      destruct (contains "## NEVER Rules" l); [apply IH|].
      destruct (prefix "## " l); [apply IH|].
      destruct (b && contains "❌ N1:" l); [now rewrite IH|].
      destruct (b && contains "❌ N2:" l); [now rewrite IH|].
      apply IH.
Qed.

End Compiler.

(** * Instances *)

(** The conclusion of C8 for a NEVER rule that is mechanical and has no
    check. *)
Lemma mechanical_without_check_witness :
  validate_rule sample_repr sample_re sample_today "demo" "N1"
    (VDict [("title", VStr "rule"); ("severity", VStr "NEVER");
            ("mechanical", VBool true)])
  = Some ([mechanical_msg "demo" "N1"], [no_sources_msg "demo" "N1"]).
Proof.
  refine (proj1 (mechanical_without_check sample_repr sample_re sample_today
                   "demo" "N1" _ _ _ _ _ _ _ _)); reflexivity.
Defined.

(** The two halves of C2 for a grep check without pattern and for a
    multi-condition check with one condition. *)
Lemma structural_violations_pass_witness :
  validate_check sample_repr sample_re "demo" "N1" (VDict [("type", VStr "grep")])
  = Some []
  /\ validate_check sample_repr sample_re "demo" "N3"
       (VDict [("type", VStr "multi-condition");
               ("conditions", VList [VDict [("pattern", VStr "eval")]])])
     = Some [].
Proof.
  split.
  - apply (proj1 (structural_violations_pass sample_repr sample_re "demo" "N1"
                    [("type", VStr "grep")] [])); reflexivity.
  - apply (proj2 (structural_violations_pass sample_repr sample_re "demo" "N3"
                    [("type", VStr "multi-condition");
                     ("conditions", VList [VDict [("pattern", VStr "eval")]])]
                    [VDict [("pattern", VStr "eval")]]));
      [reflexivity | reflexivity | simpl; lia | reflexivity].
Defined.





(** C4 for the spec with the grep rules N2 and N1. *)
Lemma export_grep_only_witness :
  exists out,
    exported_rules order_spec = Some out
    /\ forall j, In j out -> jtype j = "grep" \/ jtype j = "ast".
Proof.
  eexists. split; [reflexivity|].
  intros j Hj.
  exact (proj1 (proj1 (export_grep_only order_spec _ eq_refl) j Hj)).
Defined.


(** * Where the specification and the code part *)

(** C2.  A grep check and a presence check without pattern and a
    multi-condition check with one condition: the validator returns no
    error at all. *)
Lemma structural_violations_unreported :
  option_map fst
    (validate_spec sample_repr sample_re sample_today structural_spec "demo")
  = Some [].
Proof. reflexivity. Qed.

(** C4.  The one rule of the spec is mechanical, with a script check, and
    the exported rule database has no record. *)
Lemma mechanical_script_rule_not_exported :
  mechanical_rules script_spec = [mk_rule "N1" "NEVER" script_check]
  /\ option_map rf_rules (generate_rules_json script_spec) = Some [].
Proof. split; reflexivity. Qed.



(** * Instances of the further properties *)

Lemma unknown_check_type_error_witness :
  validate_check sample_repr sample_re "demo" "N1" (VDict [("type", VStr "foo")])
  = Some [unknown_type_msg "demo" "N1" "foo"].
Proof.
  refine (proj1 (unknown_check_type_error sample_repr sample_re "demo" "N1" "foo"
                   [("type", VStr "foo")] _ _ _));
    [reflexivity | discriminate | reflexivity].
Defined.


Lemma warnings_of_rule_witness :
  rule_warnings sample_repr sample_today "demo" "G1"
    [("title", VStr "advice"); ("provenance", VInt 3)] = Some []
  /\ rule_warnings sample_repr sample_today "demo" "N1"
       [("title", VStr "rule"); ("mechanical", VBool true)]
     = Some [no_sources_msg "demo" "N1"].
Proof.
  split.
  - refine (proj1 (warnings_of_rule sample_repr sample_today "demo" "G1" _) _).
    reflexivity.
  - refine (proj2 (warnings_of_rule sample_repr sample_today "demo" "N1" _) _ _);
      reflexivity.
Defined.

Lemma required_top_level_fields_witness :
  In (missing_domain_msg "demo")
     [missing_domain_msg "demo"; missing_rules_msg "demo"].
Proof.
  refine (proj1 (required_top_level_fields sample_repr sample_re sample_today
                   "demo" [("version", VStr "1.0.0")]
                   [missing_domain_msg "demo"; missing_rules_msg "demo"] []
                   _) _); reflexivity.
Defined.

Lemma parse_rules_order_witness :
  exists rs,
    parse_rules (VDict [("N2", raw_rule script_check); ("note", VStr "text");
                        ("N1", raw_rule script_check)]) = Some rs
    /\ map fst rs = ["N2"; "N1"].
Proof.
  eexists. split; [reflexivity|].
  exact (proj1 (parse_rules_order
                  [("N2", raw_rule script_check); ("note", VStr "text");
                   ("N1", raw_rule script_check)] _ eq_refl)).
Defined.


Lemma unknown_type_stub_witness :
  generate_check_command sample_repr
    (mk_rule "N1" "NEVER" (VDict [("type", VStr "ast")]))
  = Some "# Unknown check type: ast".
Proof.
  refine (proj1 (unknown_type_stub sample_repr
                   (mk_rule "N1" "NEVER" (VDict [("type", VStr "ast")]))
                   [("type", VStr "ast")] "ast" _ _ _ _)); reflexivity.
Defined.


Lemma infer_language_answers_witness :
  infer_language_from_domain (VStr "react") (VList [VStr "**/*.py"])
  = Some "javascript".
Proof.
  refine (proj1 (infer_language_answers (VStr "react") (VList [VStr "**/*.py"]))
            "react" "javascript" _ _); [reflexivity|].
  simpl. auto 10.
Defined.

Lemma title_roundtrip_witness :
  shell_lex InDouble (Some "N1: ")
    (replace "$" "\$" "costs $5" ++ String dquote EmptyString)
  = shell_lex Unquoted (Some ("N1: " ++ "costs $5")) EmptyString.
Proof.
  refine (proj1 (title_roundtrip sample_repr "costs $5" _) _ _). reflexivity.
Defined.

Lemma exported_entry_shape_witness :
  exists j,
    convert_check_to_rule (grep_rule "eval") = Some (Some j)
    /\ jprovenance j <> Some [].
Proof.
  eexists. split; [reflexivity|].
  exact (proj1 (exported_entry_shape (grep_rule "eval") _ eq_refl)).
Defined.


Lemma no_sources_unverified_witness :
  exists r,
    parse_rule "N1" [("title", VStr "rule"); ("severity", VStr "NEVER");
                     ("mechanical", VBool true);
                     ("provenance", VDict [("confidence", VStr "low")])]
    = Some r
    /\ is_unverified r = true.
Proof.
  eexists. split; [reflexivity|].
  refine (proj1 (no_sources_unverified sample_repr sample_today "demo" "N1"
                   [("title", VStr "rule"); ("severity", VStr "NEVER");
                    ("mechanical", VBool true);
                    ("provenance", VDict [("confidence", VStr "low")])]
                   _ VNone _ _ _ _)); reflexivity.
Defined.

Lemma stale_agrees_witness :
  exists r,
    parse_rule "N1" [("title", VStr "rule"); ("mechanical", VBool true);
                     ("provenance",
                      VDict [("re_verify_after", VStr "2025-06-30")])]
    = Some r
    /\ is_stale sample_today r = Some true.
Proof.
  eexists. split; [reflexivity|].
  refine (eq_trans
            (proj1 (stale_agrees sample_repr sample_today "demo" "N1"
                      [("title", VStr "rule"); ("mechanical", VBool true);
                       ("provenance",
                        VDict [("re_verify_after", VStr "2025-06-30")])]
                      [("re_verify_after", VStr "2025-06-30")] _ _ _ _)) _);
    reflexivity.
Defined.

Lemma errors_ignore_provenance_witness :
  [mechanical_msg "demo" "N1"] = [mechanical_msg "demo" "N1"].
Proof.
  refine (errors_ignore_provenance sample_repr sample_re sample_today "demo" "N1"
            [("title", VStr "rule"); ("severity", VStr "NEVER");
             ("mechanical", VBool true)]
            [("title", VStr "rule"); ("severity", VStr "NEVER");
             ("mechanical", VBool true);
             ("provenance", VDict [("confidence", VStr "low")])]
            _ _ [no_sources_msg "demo" "N1"]
            [no_sources_msg "demo" "N1"; low_confidence_msg "demo" "N1"]
            _ _ _); [|reflexivity|reflexivity].
  intros k N. simpl.
  destruct (String.eqb_spec k "title"); [reflexivity|].
  destruct (String.eqb_spec k "severity"); [reflexivity|].
  destruct (String.eqb_spec k "mechanical"); [reflexivity|].
  destruct (String.eqb_spec k "provenance"); [contradiction | reflexivity].
Defined.

Lemma api_rule_block_witness :
  exists block,
    generate_rule_sh sample_repr (api_grep_rule "eval\(") = Some block
    /\ contains API_FILES_ref block = true.
Proof.
  eexists. split.
  - refine (api_rule_block sample_repr "eval\(" _). reflexivity.
  - vm_compute. reflexivity.
Defined.

Lemma yaml_scan_witness :
  yaml_syntax_ok 1 ["## MUST Rules"; "❌ N1: Tab Characters"] = true.
Proof.
  refine (proj1 (proj2 (yaml_scan ["## MUST Rules"; "❌ N1: Tab Characters"]))
            _ 1%Z). reflexivity.
Defined.
